(** * HackArena 2.0 MonoTanks (Python client): payload decoding

    A shallow embedding of [hackathon_bot/payloads.py] and of the runtime
    protocol checks of [hackathon_bot/protocols.py].

    Python objects are values of the type [value]; the [from_json] class
    methods are functions from the decoded JSON tree to a [result], whose
    failures are the Python exceptions the code raises.  A dataclass
    instance is its class together with its slots, and the generated
    [__init__] and [__setattr__] are written once, over the table of the
    declarations of the module.  The case conversion of the humps library,
    which the module imports, is spelled out on ASCII text and is a
    parameter on the other texts. *)

From Stdlib Require Import String Ascii List ZArith Bool Lia.
Import ListNotations.
Open Scope string_scope.
Open Scope list_scope.

Set Warnings "-register-all".

(** ** Classes of the module *)

(** The classes defined in payloads.py, in the order of the file. *)
Inductive pyclass : Type :=
| ServerSettings
| RawPlayer
| RawMap
| RawTileObject
| RawTileEntity
| RawWall
| RawBullet
| RawTank
| RawTurret
| RawZone
| Payload
| ConnectionRejectedPayload
| LobbyDataPayload
| GameStatePayload
| GameEndPayload
| ResponseActionPayload
| TankMovementPayload
| TankRotationPayload
| TankShootPayload
| ResponsePassPayload.

Definition pyclass_eqb (c d : pyclass) : bool :=
  match c, d with
  | ServerSettings, ServerSettings
  | RawPlayer, RawPlayer
  | RawMap, RawMap
  | RawTileObject, RawTileObject
  | RawTileEntity, RawTileEntity
  | RawWall, RawWall
  | RawBullet, RawBullet
  | RawTank, RawTank
  | RawTurret, RawTurret
  | RawZone, RawZone
  | Payload, Payload
  | ConnectionRejectedPayload, ConnectionRejectedPayload
  | LobbyDataPayload, LobbyDataPayload
  | GameStatePayload, GameStatePayload
  | GameEndPayload, GameEndPayload
  | ResponseActionPayload, ResponseActionPayload
  | TankMovementPayload, TankMovementPayload
  | TankRotationPayload, TankRotationPayload
  | TankShootPayload, TankShootPayload
  | ResponsePassPayload, ResponsePassPayload => true
  | _, _ => false
  end.

(** ** Python objects *)

(** What a JSON parser produces (None, bool, int, float, str, list, dict
    with str keys), the tuples the decoders build, and the instances of the
    dataclasses.  A float is its binary64 bit pattern: no decoder computes
    with numbers.  A str is held as its UTF-8 encoding.  A dict keeps its
    insertion order, as Python's does; the dicts of a parsed message have
    distinct keys and are not shared between two places of the tree. *)
Inductive value : Type :=
| VNone
| VBool (b : bool)
| VInt (z : Z)
| VFloat (bits : Z)
| VStr (s : string)
| VList (items : list value)
| VTuple (items : list value)
| VDict (entries : list (string * value))
| VInst (cls : pyclass) (slots : list (string * value)).

Definition dict : Type := list (string * value).

(** A str whose characters are known, or a known prefix followed by the
    text Python prints for what humps makes of an object [x] that is not a
    str (a number, a truth value, a list, a dict): that text is not
    spelled out. *)
Inductive text : Type :=
| Text (s : string)
| TextStr (prefix : string) (x : value).

(** ** Exceptions and results *)

Inductive exn : Type :=
| TypeError
| KeyError (key : string)
| AttributeError
| ValueError (msg : text)
| FrozenInstanceError.

Inductive result (A : Type) : Type :=
| Ok (a : A)
| Raise (e : exn).

Arguments Ok {A} a.
Arguments Raise {A} e.

Definition bind {A B : Type} (c : result A) (k : A -> result B) : result B :=
  match c with
  | Ok a => k a
  | Raise e => Raise e
  end.

Declare Scope py_scope.
Delimit Scope py_scope with py.
Notation "x <- c ;; k" := (bind c (fun x => k))
  (at level 61, c at next level, right associativity) : py_scope.
Notation "' p <- c ;; k" := (bind c (fun x => let p := x in k))
  (at level 61, p pattern, c at next level, right associativity) : py_scope.
Open Scope py_scope.

(** [tuple(f(x) for x in xs)]: the elements are visited in order and the
    first exception ends the loop. *)
Fixpoint mapM {A B : Type} (f : A -> result B) (xs : list A) : result (list B) :=
  match xs with
  | [] => Ok []
  | x :: rest =>
      y <- f x ;;
      ys <- mapM f rest ;;
      Ok (y :: ys)
  end.

Definition is_ok {A : Type} (r : result A) : bool :=
  match r with Ok _ => true | Raise _ => false end.

(** ** Dictionaries *)

Fixpoint dict_get (k : string) (d : dict) : option value :=
  match d with
  | [] => None
  | (k', v) :: rest => if String.eqb k k' then Some v else dict_get k rest
  end.

Definition dict_mem (k : string) (d : dict) : bool :=
  match dict_get k d with Some _ => true | None => false end.

(** [d[k] = v]: an existing key keeps its place, a new key goes last. *)
Fixpoint dict_set (k : string) (v : value) (d : dict) : dict :=
  match d with
  | [] => [(k, v)]
  | (k', v') :: rest =>
      if String.eqb k k' then (k', v) :: rest else (k', v') :: dict_set k v rest
  end.

Definition dict_remove (k : string) (d : dict) : dict :=
  filter (fun kv => negb (String.eqb k (fst kv))) d.

Definition dict_keys (d : dict) : list string := map fst d.

(** ** Operations of the Python objects the decoders use *)

(** [o[k]] for a str key. *)
Definition getitem (o : value) (k : string) : result value :=
  match o with
  | VDict d =>
      match dict_get k d with
      | Some v => Ok v
      | None => Raise (KeyError k)
      end
  | _ => Raise TypeError
  end.

(** [o[k] = v] for a str key; the result is the object after the update. *)
Definition setitem (o : value) (k : string) (v : value) : result value :=
  match o with
  | VDict d => Ok (VDict (dict_set k v d))
  | _ => Raise TypeError
  end.

(** [o.pop(k)] for a str key: the popped value and the object left.
    A list has [pop], which refuses a str index; the other objects have no
    such attribute. *)
Definition pop (o : value) (k : string) : result (value * value) :=
  match o with
  | VDict d =>
      match dict_get k d with
      | Some v => Ok (v, VDict (dict_remove k d))
      | None => Raise (KeyError k)
      end
  | VList _ => Raise TypeError
  | _ => Raise AttributeError
  end.

(** [o.pop(k, default)]; a list's [pop] takes one argument at most. *)
Definition pop_default (o : value) (k : string) (default : value)
  : result (value * value) :=
  match o with
  | VDict d =>
      match dict_get k d with
      | Some v => Ok (v, VDict (dict_remove k d))
      | None => Ok (default, VDict d)
      end
  | VList _ => Raise TypeError
  | _ => Raise AttributeError
  end.

(** [o.get(k, default)]. *)
Definition get_default (o : value) (k : string) (default : value) : result value :=
  match o with
  | VDict d =>
      match dict_get k d with
      | Some v => Ok v
      | None => Ok default
      end
  | _ => Raise AttributeError
  end.

(** The bytes 128 to 191 of an encoded str continue the character that the
    byte before them began. *)
Definition is_continuation (c : ascii) : bool :=
  (128 <=? nat_of_ascii c)%nat && (nat_of_ascii c <=? 191)%nat.

Fixpoint continuation (s : string) : string :=
  match s with
  | EmptyString => EmptyString
  | String c rest =>
      if is_continuation c then String c (continuation rest) else EmptyString
  end.

(** The characters of a str, each a str of length one. *)
Fixpoint chars (s : string) : list value :=
  match s with
  | EmptyString => []
  | String c rest =>
      if is_continuation c then chars rest
      else VStr (String c (continuation rest)) :: chars rest
  end.

(** [for x in o]: the elements of a list or tuple, the characters of a str,
    the keys of a dict. *)
Definition iter (o : value) : result (list value) :=
  match o with
  | VList l => Ok l
  | VTuple l => Ok l
  | VStr s => Ok (chars s)
  | VDict d => Ok (map VStr (dict_keys d))
  | _ => Raise TypeError
  end.

(** [**o] in a call: the object must be a mapping. *)
Definition kwargs (o : value) : result dict :=
  match o with
  | VDict d => Ok d
  | _ => Raise TypeError
  end.

(** ** The dataclass declarations *)

Record field : Type := mkField {
  fname : string;
  fdefault : option value
}.

Definition required (name : string) : field := mkField name None.
Definition optional (name : string) : field := mkField name (Some VNone).

(** The fields of each dataclass in declaration order, inherited ones
    first; [= None] in the source is [optional]. *)
Definition fields_of (c : pyclass) : list field :=
  match c with
  | ServerSettings =>
      [required "grid_dimension"; required "number_of_players"; required "seed";
       required "ticks"; required "broadcast_interval"; required "eager_broadcast"]
  | RawPlayer =>
      [required "id"; required "nickname"; required "color";
       optional "score"; optional "ping"; optional "ticks_to_regen"]
  | RawMap => [required "tiles"; required "zones"; required "visibility"]
  | RawTileObject => [required "type"; required "entity"]
  | RawTileEntity => []
  | RawWall => []
  | RawBullet => [required "id"; optional "speed"; optional "direction"]
  | RawTank =>
      [required "owner_id"; required "direction"; required "turret"; optional "health"]
  | RawTurret =>
      [required "direction"; optional "bullet_count"; optional "ticks_to_regen_bullet"]
  | RawZone =>
      [required "x"; required "y"; required "width"; required "height";
       required "index"; required "status"; optional "player_id";
       optional "captured_by_id"; optional "retaken_by_id";
       optional "remaining_ticks"]
  | Payload => []
  | ConnectionRejectedPayload => [required "reason"]
  | LobbyDataPayload =>
      [required "player_id"; required "players"; required "server_settings"]
  | GameStatePayload =>
      [required "id"; required "tick"; required "players"; required "map"]
  | GameEndPayload => [required "players"]
  | ResponseActionPayload => [required "game_state_id"]
  | TankMovementPayload => [required "game_state_id"; required "direction"]
  | TankRotationPayload =>
      [required "game_state_id"; required "tank_rotation"; required "turret_rotation"]
  | TankShootPayload => [required "game_state_id"]
  | ResponsePassPayload => [required "game_state_id"]
  end.

(** [@dataclass(..., frozen=True)]: every class of the module but the plain
    ABC [Payload] is decorated so. *)
Definition is_dataclass (c : pyclass) : bool :=
  match c with
  | Payload => false
  | _ => true
  end.

Definition frozen (c : pyclass) : bool :=
  match c with
  | Payload => false
  | ServerSettings | RawPlayer | RawMap | RawTileObject | RawTileEntity
  | RawWall | RawBullet | RawTank | RawTurret | RawZone
  | ConnectionRejectedPayload | LobbyDataPayload | GameStatePayload
  | GameEndPayload | ResponseActionPayload | TankMovementPayload
  | TankRotationPayload | TankShootPayload | ResponsePassPayload => true
  end.

(** The base class inside the module, if any ([ABC] is imported). *)
Definition base (c : pyclass) : option pyclass :=
  match c with
  | RawWall | RawBullet | RawTank => Some RawTileEntity
  | ConnectionRejectedPayload | LobbyDataPayload | GameStatePayload
  | GameEndPayload | ResponseActionPayload => Some Payload
  | TankMovementPayload | TankRotationPayload | TankShootPayload
  | ResponsePassPayload => Some ResponseActionPayload
  | _ => None
  end.

(** A class that still has an abstract method cannot be instantiated. *)
Definition is_abstract (c : pyclass) : bool :=
  match c with
  | RawTileEntity => true
  | _ => false
  end.

Fixpoint ancestors (fuel : nat) (c : pyclass) : list pyclass :=
  c :: match fuel with
       | O => []
       | S n => match base c with
                | Some b => ancestors n b
                | None => []
                end
       end.

(** [issubclass(c, d)]; the inheritance chains of the module have at most
    three classes. *)
Definition issubclass (c d : pyclass) : bool :=
  existsb (pyclass_eqb d) (ancestors 2 c).

(** ** Construction and attribute assignment *)

Definition field_names (c : pyclass) : list string := map fname (fields_of c).

Definition known_keyword (c : pyclass) (k : string) : bool :=
  existsb (String.eqb k) (field_names c).

(** The value a field receives: the keyword argument of its name, else its
    default, else the call fails for a missing argument. *)
Definition bind_field (kw : dict) (f : field) : result (string * value) :=
  match dict_get (fname f) kw with
  | Some v => Ok (fname f, v)
  | None =>
      match fdefault f with
      | Some v => Ok (fname f, v)
      | None => Raise TypeError
      end
  end.

(** The call of [cls] with the keywords [kw] unpacked, for the generated
    [__init__]: a keyword that names no field
    is a TypeError, and so is a field without value or default. *)
Definition dataclass_init (c : pyclass) (kw : dict) : result value :=
  if is_abstract c then Raise TypeError
  else if forallb (known_keyword c) (dict_keys kw) then
    slots <- mapM (bind_field kw) (fields_of c) ;;
    Ok (VInst c slots)
  else Raise TypeError.

(** [o.name]. *)
Definition getattr (o : value) (name : string) : result value :=
  match o with
  | VInst _ slots =>
      match dict_get name slots with
      | Some v => Ok v
      | None => Raise AttributeError
      end
  | _ => Raise AttributeError
  end.

(** [o.name = v].  The [__setattr__] generated for a frozen dataclass
    raises FrozenInstanceError when the name is one of the fields of the
    class; for any other name it goes on to [super(cls, self)], where [cls]
    is the class as it was before the decorator rebuilt it with slots, of
    which the object is no instance: a TypeError.  An instance of the
    plain class [Payload] takes any attribute. *)
Definition setattr (o : value) (name : string) (v : value) : result value :=
  match o with
  | VInst c slots =>
      if frozen c then
        if known_keyword c name then Raise FrozenInstanceError
        else Raise TypeError
      else Ok (VInst c (dict_set name v slots))
  | _ => Raise AttributeError
  end.

(** [del o.name]: the generated [__delattr__] has the same two cases. *)
Definition delattr (o : value) (name : string) : result value :=
  match o with
  | VInst c slots =>
      if frozen c then
        if known_keyword c name then Raise FrozenInstanceError
        else Raise TypeError
      else if dict_mem name slots then Ok (VInst c (dict_remove name slots))
      else Raise AttributeError
  | _ => Raise AttributeError
  end.

(** ** Runtime protocols (protocols.py) *)

Module Protocols.

(** The protocols decorated with [runtime_checkable]: the ones
    [isinstance] accepts. *)
Inductive protocol : Type :=
| PlayerTank
| AgentTank
| Wall
| Bullet
| NeutralZone
| BeingCapturedZone
| CapturedZone
| BeingContestedZone
| BeingRetakenZone.

(** The members of the protocol [Zone], inherited by the zone protocols. *)
Definition zone_attrs : list string :=
  ["x"; "y"; "width"; "height"; "index"; "status"].

(** The members of a protocol: its annotated markers and its properties. *)
Definition protocol_attrs (p : protocol) : list string :=
  match p with
  | PlayerTank =>
      ["__instancecheck_tank__"; "owner_id"; "direction"; "turret"]
  | AgentTank =>
      ["__instancecheck_tank__"; "__instancecheck_agenttank__";
       "owner_id"; "direction"; "turret"; "health"]
  | Wall => ["__instancecheck_wall__"]
  | Bullet => ["__instancecheck_bullet__"; "id"; "speed"; "direction"]
  | NeutralZone => "__instancecheck_neutralzone__" :: zone_attrs
  | BeingCapturedZone =>
      ["__instancecheck_beingcapturedzone__"; "player_id"; "remaining_ticks"]
        ++ zone_attrs
  | CapturedZone => ["__instancecheck_capturedzone__"; "player_id"] ++ zone_attrs
  | BeingContestedZone =>
      ["__instancecheck_beingcontestedzone__"; "captured_by_id"] ++ zone_attrs
  | BeingRetakenZone =>
      ["__instancecheck_beingretakenzone__"; "captured_by_id"; "retaken_by_id";
       "remaining_ticks"] ++ zone_attrs
  end.

(** An object, as far as a protocol looks at it: its attributes. *)
Definition object : Type := dict.

Definition hasattr (o : object) (name : string) : bool := dict_mem name o.

(** [isinstance(o, p)] for a runtime protocol with data members: every
    member must be an attribute of the object. *)
Definition isinstance (o : object) (p : protocol) : bool :=
  forallb (hasattr o) (protocol_attrs p).

End Protocols.

(** ** The case conversion of the humps library

    [humps.pascalize] on a str, as pyhumps 3.8 defines it: white space is
    dropped, an upper-case or numeric text is returned as it came, otherwise
    every run of characters other than [-] and [_] gets a capital initial,
    the text goes through [camelize], and the first character is
    capitalised again.  The functions below spell this out for ASCII text,
    on which the classes and the case mappings of Python's characters are
    those of the ASCII letters, digits and blanks; what the library makes
    of a text with other characters depends on the Unicode tables of the
    interpreter and is a parameter of the development. *)

Definition code (c : ascii) : nat := nat_of_ascii c.

Definition is_upper (c : ascii) : bool := (65 <=? code c)%nat && (code c <=? 90)%nat.
Definition is_lower (c : ascii) : bool := (97 <=? code c)%nat && (code c <=? 122)%nat.
Definition is_digit (c : ascii) : bool := (48 <=? code c)%nat && (code c <=? 57)%nat.

Definition is_space (c : ascii) : bool :=
  ((9 <=? code c)%nat && (code c <=? 13)%nat)
  || ((28 <=? code c)%nat && (code c <=? 32)%nat).

(** The separators of the two regular expressions: [-] and [_]. *)
Definition is_sep (c : ascii) : bool :=
  (code c =? 45)%nat || (code c =? 95)%nat.

Definition upper (c : ascii) : ascii :=
  if is_lower c then ascii_of_nat (code c - 32) else c.

Definition lower (c : ascii) : ascii :=
  if is_upper c then ascii_of_nat (code c + 32) else c.

Fixpoint string_forallb (p : ascii -> bool) (s : string) : bool :=
  match s with
  | EmptyString => true
  | String c rest => p c && string_forallb p rest
  end.

Fixpoint string_existsb (p : ascii -> bool) (s : string) : bool :=
  match s with
  | EmptyString => false
  | String c rest => p c || string_existsb p rest
  end.

(** [s.isupper()]: some cased character, and none in lower case. *)
Definition isupper (s : string) : bool :=
  string_existsb is_upper s && negb (string_existsb is_lower s).

(** [s.isnumeric()]: not empty, digits only. *)
Definition isnumeric (s : string) : bool :=
  negb (String.eqb s "") && string_forallb is_digit s.

(** The removal of every run of white space ([re.sub] of [\s+] by the
    empty str). *)
Fixpoint remove_whitespace (s : string) : string :=
  match s with
  | EmptyString => EmptyString
  | String c rest =>
      if is_space c then remove_whitespace rest
      else String c (remove_whitespace rest)
  end.

Definition upper_first (s : string) : string :=
  match s with
  | EmptyString => EmptyString
  | String c rest => String (upper c) rest
  end.

Definition lower_first (s : string) : string :=
  match s with
  | EmptyString => EmptyString
  | String c rest => String (lower c) rest
  end.

(** [PASCAL_RE.sub(_replace_fn, s)] with [PASCAL_RE = ([^\-_]+)]: the first
    character of every run of non-separators is put in upper case.
    [at_start] says that the next character would open a run. *)
Fixpoint pascal_sub (at_start : bool) (s : string) : string :=
  match s with
  | EmptyString => EmptyString
  | String c rest =>
      if is_sep c then String c (pascal_sub true rest)
      else String (if at_start then upper c else c) (pascal_sub false rest)
  end.

(** [UNDERSCORE_RE.sub(lambda m: m.group(0)[-1].upper(), s)] with
    [UNDERSCORE_RE = (?<=[^\-_])[\-_]+[^\-_]]: separators that follow a
    non-separator and are followed by one are dropped, and the character
    after them is put in upper case.  [pending] holds the separators read
    since the last non-separator; they stay if the text ends there. *)
Fixpoint underscore_sub (pending : string) (after_word : bool) (s : string) : string :=
  match s with
  | EmptyString => pending
  | String c rest =>
      if is_sep c then
        if after_word then underscore_sub (pending ++ String c EmptyString) true rest
        else String c (underscore_sub EmptyString false rest)
      else
        match pending with
        | EmptyString => String c (underscore_sub EmptyString true rest)
        | _ => String (upper c) (underscore_sub EmptyString true rest)
        end
  end.

(** [humps.camelize] on ASCII text. *)
Definition camelize (str_or_iter : string) : string :=
  let s := remove_whitespace str_or_iter in
  if isupper s || isnumeric s then str_or_iter
  else
    let s :=
      if negb (String.length s =? 0)%nat && negb (isupper (substring 0 2 s))
      then lower_first s else s in
    underscore_sub EmptyString false s.

Definition pascalize_ascii (str_or_iter : string) : string :=
  let s := remove_whitespace str_or_iter in
  if isupper s || isnumeric s then str_or_iter
  else upper_first (camelize (pascal_sub true s)).

(** A text is ASCII when its encoding has no byte over 127. *)
Definition is_ascii_text (s : string) : bool :=
  string_forallb (fun c => (code c <=? 127)%nat) s.

(** For the closed examples, whose texts are all ASCII: a conversion of the
    other texts, which no example reaches. *)
Definition unconverted (s : string) : string := s.

Section Decoding.

(** [humps.pascalize] on the texts that are not ASCII. *)
Variable pascalize_unicode : string -> string.

Definition pascalize (str_or_iter : string) : string :=
  if is_ascii_text str_or_iter then pascalize_ascii str_or_iter
  else pascalize_unicode str_or_iter.

(** [f"Raw{humps.pascalize(obj_type)}"].  For an object that is not a str
    humps returns an object whose text is empty (None), or that of a number,
    a truth value, a list or a dict. *)
Definition raw_class_name (obj_type : value) : text :=
  match obj_type with
  | VStr s => Text ("Raw" ++ pascalize s)
  | VNone => Text "Raw"
  | x => TextStr "Raw" x
  end.

Definition text_prepend (prefix : string) (t : text) : text :=
  match t with
  | Text s => Text (prefix ++ s)
  | TextStr p x => TextStr (prefix ++ p) x
  end.

(** ** The global namespace of the module *)

Inductive global : Type :=
| GClass (c : pyclass)   (* a class defined in the module *)
| GABC                   (* the imported class ABC *)
| GObject.               (* an imported function, module or feature; a module attribute *)

Definition module_globals : list (string * global) :=
  [("__name__", GObject); ("__doc__", GObject); ("__package__", GObject);
   ("__loader__", GObject); ("__spec__", GObject); ("__file__", GObject);
   ("__cached__", GObject); ("__builtins__", GObject);
   ("annotations", GObject); ("ABC", GABC); ("abstractmethod", GObject);
   ("dataclass", GObject); ("humps", GObject);
   ("ServerSettings", GClass ServerSettings);
   ("RawPlayer", GClass RawPlayer);
   ("RawMap", GClass RawMap);
   ("RawTileObject", GClass RawTileObject);
   ("RawTileEntity", GClass RawTileEntity);
   ("RawWall", GClass RawWall);
   ("RawBullet", GClass RawBullet);
   ("RawTank", GClass RawTank);
   ("RawTurret", GClass RawTurret);
   ("RawZone", GClass RawZone);
   ("Payload", GClass Payload);
   ("ConnectionRejectedPayload", GClass ConnectionRejectedPayload);
   ("LobbyDataPayload", GClass LobbyDataPayload);
   ("GameStatePayload", GClass GameStatePayload);
   ("GameEndPayload", GClass GameEndPayload);
   ("ResponseActionPayload", GClass ResponseActionPayload);
   ("TankMovementPayload", GClass TankMovementPayload);
   ("TankRotationPayload", GClass TankRotationPayload);
   ("TankShootPayload", GClass TankShootPayload);
   ("ResponsePassPayload", GClass ResponsePassPayload)].

Fixpoint assoc {A : Type} (k : string) (l : list (string * A)) : option A :=
  match l with
  | [] => None
  | (k', a) :: rest => if String.eqb k k' then Some a else assoc k rest
  end.

(** [globals().get(name)].  The text of a number, a truth value, a list or
    a dict after "Raw" names nothing in the module. *)
Definition globals_get (name : text) : option global :=
  match name with
  | Text s => assoc s module_globals
  | TextStr _ _ => None
  end.

(** ** The decoders *)

(** A call with positional arguments only: the n-th argument goes to the
    n-th field. *)
Definition positional (c : pyclass) (args : list value) : dict :=
  combine (field_names c) args.

(** Every [from_json] that ends in the call of [cls] on the unpacked
    [json_data]. *)
Definition construct (c : pyclass) (json_data : value) : result value :=
  kw <- kwargs json_data ;;
  dataclass_init c kw.

Definition RawPlayer_from_json (json_data : value) : result value :=
  construct RawPlayer json_data.

Definition RawWall_from_json (json_data : value) : result value :=
  construct RawWall json_data.

Definition RawBullet_from_json (json_data : value) : result value :=
  construct RawBullet json_data.

Definition RawTurret_from_json (json_data : value) : result value :=
  construct RawTurret json_data.

Definition RawTank_from_json (json_data : value) : result value :=
  turret_data <- getitem json_data "turret" ;;
  turret <- RawTurret_from_json turret_data ;;
  json_data <- setitem json_data "turret" turret ;;
  construct RawTank json_data.

(** [payload_class.from_json(...)] for a class the subclass test lets
    through.  The abstract method of [RawTileEntity] has a doc string for
    body: called on the class itself it returns None. *)
Definition tile_entity_from_json (payload_class : pyclass) (json_data : value)
  : result value :=
  match payload_class with
  | RawTileEntity => Ok VNone
  | RawWall => RawWall_from_json json_data
  | RawBullet => RawBullet_from_json json_data
  | RawTank => RawTank_from_json json_data
  | _ => Raise AttributeError
  end.

Definition unknown_tile_object_class (payload_class_name : text) : exn :=
  ValueError (text_prepend "Unknown tile object class: " payload_class_name).

Definition RawTileObject_from_json (json_data : value) : result value :=
  '(obj_type, json_data) <- pop json_data "type" ;;
  let payload_class_name := raw_class_name obj_type in
  match globals_get payload_class_name with
  | None => Raise (unknown_tile_object_class payload_class_name)
  | Some GABC => Raise (unknown_tile_object_class payload_class_name)
  | Some GObject => Raise TypeError
  | Some (GClass payload_class) =>
      if issubclass payload_class RawTileEntity then
        payload <- get_default json_data "payload" (VDict []) ;;
        entity <- tile_entity_from_json payload_class payload ;;
        dataclass_init RawTileObject (positional RawTileObject [obj_type; entity])
      else Raise (unknown_tile_object_class payload_class_name)
  end.

Definition RawZone_from_json (json_data : value) : result value :=
  '(status, json_data) <- pop_default json_data "status" (VDict []) ;;
  status_type <- getitem status "type" ;;
  json_data <- setitem json_data "status" status_type ;;
  player_id <- get_default status "player_id" VNone ;;
  json_data <- setitem json_data "player_id" player_id ;;
  captured_by_id <- get_default status "captured_by_id" VNone ;;
  json_data <- setitem json_data "captured_by_id" captured_by_id ;;
  retaken_by_id <- get_default status "retaken_by_id" VNone ;;
  json_data <- setitem json_data "retaken_by_id" retaken_by_id ;;
  remaining_ticks <- get_default status "remaining_ticks" VNone ;;
  json_data <- setitem json_data "remaining_ticks" remaining_ticks ;;
  construct RawZone json_data.

(** [tuple(f(x) for x in o)]. *)
Definition tuple_of (f : value -> result value) (o : value) : result value :=
  xs <- iter o ;;
  ys <- mapM f xs ;;
  Ok (VTuple ys).

Definition RawMap_from_json (json_data : value) : result value :=
  rows <- getitem json_data "tiles" ;;
  tiles <- tuple_of (tuple_of (tuple_of RawTileObject_from_json)) rows ;;
  json_data <- setitem json_data "tiles" tiles ;;
  zones_data <- getitem json_data "zones" ;;
  zones <- tuple_of RawZone_from_json zones_data ;;
  json_data <- setitem json_data "zones" zones ;;
  visibility_data <- getitem json_data "visibility" ;;
  visibility <- tuple_of Ok visibility_data ;;
  json_data <- setitem json_data "visibility" visibility ;;
  construct RawMap json_data.

Definition ConnectionRejectedPayload_from_json (json_data : value) : result value :=
  construct ConnectionRejectedPayload json_data.

Definition LobbyDataPayload_from_json (json_data : value) : result value :=
  players_data <- getitem json_data "players" ;;
  players <- tuple_of RawPlayer_from_json players_data ;;
  json_data <- setitem json_data "players" players ;;
  settings_data <- getitem json_data "server_settings" ;;
  server_settings <- construct ServerSettings settings_data ;;
  json_data <- setitem json_data "server_settings" server_settings ;;
  construct LobbyDataPayload json_data.

Definition GameStatePayload_from_json (json_data : value) : result value :=
  players_data <- getitem json_data "players" ;;
  players <- tuple_of RawPlayer_from_json players_data ;;
  json_data <- setitem json_data "players" players ;;
  map_data <- getitem json_data "map" ;;
  map <- RawMap_from_json map_data ;;
  json_data <- setitem json_data "map" map ;;
  construct GameStatePayload json_data.

Definition GameEndPayload_from_json (json_data : value) : result value :=
  players_data <- getitem json_data "players" ;;
  players <- tuple_of (construct RawPlayer) players_data ;;
  json_data <- setitem json_data "players" players ;;
  construct GameEndPayload json_data.

(** ** Auxiliary notions for the statements *)

(** What [bind_field] finds for a field: the keyword, else the default. *)
Definition field_value (kw : dict) (f : field) : option value :=
  match dict_get (fname f) kw with
  | Some v => Some v
  | None => fdefault f
  end.

Definition find_field (k : string) (fs : list field) : option field :=
  find (fun f => String.eqb k (fname f)) fs.

(** [status.get(k, None)] on the status sub-object of a zone. *)
Definition status_get (status : dict) (k : string) : value :=
  match dict_get k status with
  | Some v => v
  | None => VNone
  end.

Definition has_value (kw : dict) (f : field) : bool :=
  match field_value kw f with
  | Some _ => true
  | None => false
  end.

(** The decoders that only unpack their argument into the constructor. *)
Definition plain_decoders : list (pyclass * (value -> result value)) :=
  [(RawPlayer, RawPlayer_from_json);
   (RawWall, RawWall_from_json);
   (RawBullet, RawBullet_from_json);
   (RawTurret, RawTurret_from_json);
   (ConnectionRejectedPayload, ConnectionRejectedPayload_from_json)].

(** Every decoder of the module, [ServerSettings] being built by its
    constructor. *)
Definition decoders : list (value -> result value) :=
  [construct ServerSettings;
   RawPlayer_from_json;
   RawMap_from_json;
   RawTileObject_from_json;
   RawWall_from_json;
   RawBullet_from_json;
   RawTank_from_json;
   RawTurret_from_json;
   RawZone_from_json;
   ConnectionRejectedPayload_from_json;
   LobbyDataPayload_from_json;
   GameStatePayload_from_json;
   GameEndPayload_from_json].

(** The occupant tags of the protocol, the classes they stand for and the
    decoders of these classes. *)
Definition occupant_decoders : list (string * pyclass * (value -> result value)) :=
  [("wall", RawWall, RawWall_from_json);
   ("bullet", RawBullet, RawBullet_from_json);
   ("tank", RawTank, RawTank_from_json)].

(** [json_data.get("payload", {})] on an occupant object. *)
Definition payload_of (d : dict) : value :=
  match dict_get "payload" d with
  | Some p => p
  | None => VDict []
  end.

(** The keywords [RawZone.from_json] hands to the constructor: the zone
    object after the status was popped and the five entries were stored. *)
Definition zone_kwargs (d status : dict) (status_type : value) : dict :=
  dict_set "remaining_ticks" (status_get status "remaining_ticks")
    (dict_set "retaken_by_id" (status_get status "retaken_by_id")
       (dict_set "captured_by_id" (status_get status "captured_by_id")
          (dict_set "player_id" (status_get status "player_id")
             (dict_set "status" status_type (dict_remove "status" d))))).

(** How a call ended: normally, or with which exception. *)
Definition outcome {A : Type} (r : result A) : option exn :=
  match r with
  | Ok _ => None
  | Raise e => Some e
  end.

(** The rewriting of a message that gives every occupant of the map another
    owner: [update_key k g] changes the entry [k] of a dict by [g],
    [map_list g] the elements of a list. *)
Definition update_key (k : string) (g : value -> value) (o : value) : value :=
  match o with
  | VDict d =>
      match dict_get k d with
      | Some x => VDict (dict_set k (g x) d)
      | None => o
      end
  | _ => o
  end.

Definition map_list (g : value -> value) (o : value) : value :=
  match o with
  | VList l => VList (map g l)
  | _ => o
  end.

Definition reown_payload (owner : value) : value -> value :=
  update_key "owner_id" (fun _ => owner).

Definition reown_object (owner : value) : value -> value :=
  update_key "payload" (reown_payload owner).

Definition reown_tiles (owner : value) : value -> value :=
  map_list (map_list (map_list (reown_object owner))).

Definition reown_map (owner : value) : value -> value :=
  update_key "tiles" (reown_tiles owner).

Definition reown_state (owner : value) : value -> value :=
  update_key "map" (reown_map owner).

(** Two dicts with the same keys in the same order that agree on every
    key but [k]. *)
Definition same_but (k : string) (d d' : dict) : Prop :=
  dict_keys d = dict_keys d' /\ forall k', k' <> k -> dict_get k' d = dict_get k' d'.

(** The part of [RawMap.from_json] that follows the decoding of the tiles. *)
Definition RawMap_after_tiles (json_data : value) : result value :=
  zones_data <- getitem json_data "zones" ;;
  zones <- tuple_of RawZone_from_json zones_data ;;
  json_data <- setitem json_data "zones" zones ;;
  visibility_data <- getitem json_data "visibility" ;;
  visibility <- tuple_of Ok visibility_data ;;
  json_data <- setitem json_data "visibility" visibility ;;
  construct RawMap json_data.

(** Sample messages. *)

Definition zone_data (status : value) : value :=
  VDict [("x", VInt 0); ("y", VInt 0); ("width", VInt 1); ("height", VInt 1);
         ("index", VInt 0); ("status", status)].

Definition being_captured_with_retaker : value :=
  zone_data (VDict [("type", VStr "being_captured"); ("player_id", VStr "p1");
                    ("remaining_ticks", VInt 5); ("retaken_by_id", VStr "p9")]).

Definition neutral_with_player : value :=
  zone_data (VDict [("type", VStr "neutral"); ("player_id", VStr "p1")]).

Definition player_data (id : string) : dict :=
  [("id", VStr id); ("nickname", VStr "bot"); ("color", VInt 4278190335)].

Definition tank_data (owner : value) : value :=
  VDict [("type", VStr "tank");
         ("payload", VDict [("owner_id", owner); ("direction", VInt 0);
                            ("turret", VDict [("direction", VInt 1)])])].

Definition game_state_data (players : list value) (occupant : value) : value :=
  VDict [("id", VStr "state-1"); ("tick", VInt 7);
         ("players", VList players);
         ("map", VDict [("tiles", VList [VList [VList [occupant]]]);
                        ("zones", VList []);
                        ("visibility", VList [VStr "1"])])].

(** ** Further notions for the statements *)

(** The decoders that decode parts of their argument before they call the
    constructor on what is left. *)
Definition composite_decoders : list (pyclass * (value -> result value)) :=
  [(RawTank, RawTank_from_json);
   (RawZone, RawZone_from_json);
   (RawMap, RawMap_from_json);
   (LobbyDataPayload, LobbyDataPayload_from_json);
   (GameStatePayload, GameStatePayload_from_json);
   (GameEndPayload, GameEndPayload_from_json)].

(** [ys] holds, in order, the results of [f] on the elements of [xs]. *)
Definition decoded_by (f : value -> result value) (xs ys : list value) : Prop :=
  Forall2 (fun x y => f x = Ok y) xs ys.



(** The object that has the members of a protocol for attributes, and no
    other. *)
Definition bare_instance (p : Protocols.protocol) : Protocols.object :=
  map (fun name => (name, VNone)) (Protocols.protocol_attrs p).

(** The n-th element of a list or a tuple, and the occupant [k] of the
    tile [j] of the row [i] of a grid of tiles. *)
Definition nth_item (o : value) (n : nat) : option value :=
  match o with
  | VList l => nth_error l n
  | VTuple l => nth_error l n
  | _ => None
  end.

Definition tile_occupant (tiles : value) (i j k : nat) : option value :=
  match nth_item tiles i with
  | Some row =>
      match nth_item row j with
      | Some tile => nth_item tile k
      | None => None
      end
  | None => None
  end.

(** * Properties *)

(** ** Dictionaries *)

Lemma dict_get_set_eq (k : string) (v : value) (d : dict) :
  dict_get k (dict_set k v d) = Some v.
Proof.
  induction d as [|[k' v'] d IH]; simpl.
  - now rewrite String.eqb_refl.
  - destruct (String.eqb k k') eqn:E; simpl; rewrite E; auto.
Qed.

Lemma dict_get_set_neq (k k' : string) (v : value) (d : dict) :
  k <> k' -> dict_get k' (dict_set k v d) = dict_get k' d.
Proof.
  intros Hne. induction d as [|[k0 v0] d IH]; simpl.
  - destruct (String.eqb k' k) eqn:E; auto.
    apply String.eqb_eq in E. congruence.
  - destruct (String.eqb k k0) eqn:E; simpl.
    + apply String.eqb_eq in E. subst k0.
      destruct (String.eqb k' k) eqn:E'; auto.
      apply String.eqb_eq in E'. congruence.
    + now rewrite IH.
Qed.

Lemma dict_get_remove_eq (k : string) (d : dict) :
  dict_get k (dict_remove k d) = None.
Proof.
  induction d as [|[k0 v0] d IH]; simpl; auto.
  destruct (String.eqb k k0) eqn:E; simpl; auto.
  now rewrite E.
Qed.

Lemma dict_get_remove_neq (k k' : string) (d : dict) :
  k <> k' -> dict_get k' (dict_remove k d) = dict_get k' d.
Proof.
  intros Hne. induction d as [|[k0 v0] d IH]; simpl; auto.
  destruct (String.eqb k k0) eqn:E; simpl.
  - apply String.eqb_eq in E. subst k0.
    destruct (String.eqb k' k) eqn:E'; auto.
    apply String.eqb_eq in E'. congruence.
  - now rewrite IH.
Qed.

Lemma dict_keys_set_present (k : string) (v : value) (d : dict) :
  dict_mem k d = true -> dict_keys (dict_set k v d) = dict_keys d.
Proof.
  unfold dict_mem, dict_keys.
  induction d as [|[k0 v0] d IH]; simpl; [discriminate|].
  destruct (String.eqb k k0) eqn:E; simpl; auto.
  intros H. now rewrite IH.
Qed.

(** ** Construction *)

Lemma bind_field_spec (kw : dict) (f : field) :
  bind_field kw f =
  match field_value kw f with
  | Some v => Ok (fname f, v)
  | None => Raise TypeError
  end.
Proof.
  unfold bind_field, field_value.
  destruct (dict_get (fname f) kw); auto.
Qed.

Lemma mapM_bind_field_get (kw : dict) (fs : list field) (slots : dict) (k : string) :
  mapM (bind_field kw) fs = Ok slots ->
  dict_get k slots =
  match find_field k fs with
  | Some f => field_value kw f
  | None => None
  end.
Proof.
  revert slots. induction fs as [|f fs IH]; intros slots; simpl.
  - intros H. injection H as <-. reflexivity.
  - rewrite bind_field_spec.
    destruct (field_value kw f) as [v|] eqn:Hv; simpl; [|discriminate].
    destruct (mapM (bind_field kw) fs) as [ys|e] eqn:Hm; simpl; [|discriminate].
    intros H. injection H as <-. simpl.
    destruct (String.eqb k (fname f)); auto.
Qed.

Lemma mapM_bind_field_raise (kw : dict) (fs : list field) (e : exn) :
  mapM (bind_field kw) fs = Raise e -> e = TypeError.
Proof.
  induction fs as [|f fs IH]; simpl; [discriminate|].
  rewrite bind_field_spec.
  destruct (field_value kw f); simpl; [|congruence].
  destruct (mapM (bind_field kw) fs); simpl; [discriminate|].
  intros H. injection H as <-. now apply IH.
Qed.

Lemma mapM_bind_field_ok (kw : dict) (fs : list field) :
  is_ok (mapM (bind_field kw) fs) =
  forallb (fun f => match field_value kw f with Some _ => true | None => false end) fs.
Proof.
  induction fs as [|f fs IH]; simpl; auto.
  rewrite bind_field_spec.
  destruct (field_value kw f); simpl; auto.
  rewrite <- IH. destruct (mapM (bind_field kw) fs); reflexivity.
Qed.

Lemma mapM_bind_field_keys (kw : dict) (fs : list field) (slots : dict) :
  mapM (bind_field kw) fs = Ok slots -> dict_keys slots = map fname fs.
Proof.
  revert slots. induction fs as [|f fs IH]; intros slots; simpl.
  - intros H. injection H as <-. reflexivity.
  - rewrite bind_field_spec.
    destruct (field_value kw f); simpl; [|discriminate].
    destruct (mapM (bind_field kw) fs) as [ys|]; simpl; [|discriminate].
    intros H. injection H as <-. simpl. f_equal. now apply IH.
Qed.

(** The slots of a constructed instance: each field holds its keyword
    argument, else its default. *)
Lemma dataclass_init_getattr (c : pyclass) (kw : dict) (r : value) (k : string) (f : field) :
  dataclass_init c kw = Ok r ->
  find_field k (fields_of c) = Some f ->
  exists v, field_value kw f = Some v /\ getattr r k = Ok v.
Proof.
  unfold dataclass_init. intros H Hf.
  destruct (is_abstract c); [discriminate|].
  destruct (forallb (known_keyword c) (dict_keys kw)); [|discriminate].
  destruct (mapM (bind_field kw) (fields_of c)) as [slots|e] eqn:Hm; simpl in H;
    [|discriminate].
  injection H as <-. simpl.
  pose proof (mapM_bind_field_get _ _ _ k Hm) as Hg. rewrite Hf in Hg.
  assert (Hok : is_ok (mapM (bind_field kw) (fields_of c)) = true)
    by now rewrite Hm.
  rewrite mapM_bind_field_ok, forallb_forall in Hok.
  apply find_some in Hf as [Hin _]. specialize (Hok f Hin).
  destruct (field_value kw f) as [v|]; [|discriminate].
  exists v. split; auto. now rewrite Hg.
Qed.

Lemma dataclass_init_inst (c : pyclass) (kw : dict) (r : value) :
  dataclass_init c kw = Ok r -> exists slots, r = VInst c slots.
Proof.
  unfold dataclass_init.
  destruct (is_abstract c); [discriminate|].
  destruct (forallb (known_keyword c) (dict_keys kw)); [|discriminate].
  destruct (mapM (bind_field kw) (fields_of c)) as [slots|e]; simpl; [|discriminate].
  intros H. injection H as <-. eauto.
Qed.

Lemma dataclass_init_raise (c : pyclass) (kw : dict) (e : exn) :
  dataclass_init c kw = Raise e -> e = TypeError.
Proof.
  unfold dataclass_init.
  destruct (is_abstract c); [congruence|].
  destruct (forallb (known_keyword c) (dict_keys kw)); [|congruence].
  destruct (mapM (bind_field kw) (fields_of c)) as [slots|e'] eqn:Hm; simpl;
    [discriminate|].
  intros H. injection H as <-. eapply mapM_bind_field_raise; eauto.
Qed.

(** Construction succeeds exactly when the class is concrete, every keyword
    names a field, and every field has a keyword or a default. *)
Lemma dataclass_init_ok (c : pyclass) (kw : dict) :
  is_ok (dataclass_init c kw) =
  negb (is_abstract c)
  && forallb (known_keyword c) (dict_keys kw)
  && forallb (fun f => match field_value kw f with Some _ => true | None => false end)
       (fields_of c).
Proof.
  unfold dataclass_init.
  destruct (is_abstract c); simpl; auto.
  destruct (forallb (known_keyword c) (dict_keys kw)); simpl; auto.
  rewrite <- mapM_bind_field_ok.
  destruct (mapM (bind_field kw) (fields_of c)); reflexivity.
Qed.

Lemma construct_dict (c : pyclass) (d : dict) :
  construct c (VDict d) = dataclass_init c d.
Proof. reflexivity. Qed.

Lemma construct_inst (c : pyclass) (j r : value) :
  construct c j = Ok r -> exists slots, r = VInst c slots.
Proof.
  destruct j; simpl; try discriminate. apply dataclass_init_inst.
Qed.


Lemma unknown_keyword_rejected (c : pyclass) (d : dict) (k : string) :
  In k (dict_keys d) -> known_keyword c k = false ->
  dataclass_init c d = Raise TypeError.
Proof.
  intros Hin Hk. unfold dataclass_init.
  destruct (is_abstract c); auto.
  destruct (forallb (known_keyword c) (dict_keys d)) eqn:Hall; auto.
  rewrite forallb_forall in Hall. specialize (Hall k Hin). congruence.
Qed.

Lemma plain_decoder_construct (c : pyclass) (f : value -> result value) :
  In (c, f) plain_decoders -> f = construct c /\ is_abstract c = false.
Proof.
  unfold plain_decoders. simpl.
  intros [H|[H|[H|[H|[H|[]]]]]]; injection H as <- <-; auto.
Qed.

(** ** C5: keys outside the field set *)

(** C5, as the code has it: a decoder that unpacks its argument into the
    constructor rejects, with a TypeError, every input mapping that has a
    key outside the field set of its record; it succeeds exactly when every
    key names a field and every field without default is present. *)
Theorem extra_keys_are_rejected :
  forall (c : pyclass) (f : value -> result value) (d : dict),
    In (c, f) plain_decoders ->
    (forall k, In k (dict_keys d) -> known_keyword c k = false ->
               f (VDict d) = Raise TypeError)
    /\ is_ok (f (VDict d)) =
       forallb (known_keyword c) (dict_keys d) && forallb (has_value d) (fields_of c).
Proof.
  intros c f d Hin.
  apply plain_decoder_construct in Hin as [-> Habs]. split.
  - intros k Hk Hunknown. rewrite construct_dict.
    eapply unknown_keyword_rejected; eauto.
  - rewrite construct_dict, dataclass_init_ok, Habs. reflexivity.
Qed.

Lemma extra_keys_are_rejected_witness :
  RawPlayer_from_json (VDict (player_data "p1" ++ [("team", VInt 2)])) = Raise TypeError
  /\ is_ok (RawPlayer_from_json (VDict (player_data "p1"))) = true.
Proof.
  pose proof (extra_keys_are_rejected RawPlayer RawPlayer_from_json) as H.
  split.
  - apply (H (player_data "p1" ++ [("team", VInt 2)])) with (k := "team").
    + simpl. auto.
    + simpl. auto 10.
    + reflexivity.
  - destruct (H (player_data "p1")) as [_ ->]; [simpl; auto | reflexivity].
Defined.

(** C5 fails on the code: a player record with the unknown key [team] does
    not decode, although the same record without that key does. *)
Lemma extra_key_counterexample :
  RawPlayer_from_json (VDict (player_data "p1" ++ [("team", VInt 2)])) = Raise TypeError
  /\ RawPlayer_from_json (VDict (player_data "p1")) =
     Ok (VInst RawPlayer
           [("id", VStr "p1"); ("nickname", VStr "bot"); ("color", VInt 4278190335);
            ("score", VNone); ("ping", VNone); ("ticks_to_regen", VNone)]).
Proof. split; reflexivity. Qed.

(** ** C3: rotation payloads *)

(** C3, as the code has it: the rotation payload is built for every pair of
    rotation values, absent ones included; the record holds the three
    arguments as given. *)
Theorem rotation_payload_accepts_any_combination :
  forall game_state_id tank_rotation turret_rotation : value,
    dataclass_init TankRotationPayload
      (positional TankRotationPayload [game_state_id; tank_rotation; turret_rotation])
    = Ok (VInst TankRotationPayload
            [("game_state_id", game_state_id);
             ("tank_rotation", tank_rotation);
             ("turret_rotation", turret_rotation)]).
Proof. reflexivity. Qed.

(** C3 fails on the code: a rotation with both fields None is accepted. *)
Lemma rotation_both_absent_counterexample :
  dataclass_init TankRotationPayload
    [("game_state_id", VStr "state-1"); ("tank_rotation", VNone);
     ("turret_rotation", VNone)]
  = Ok (VInst TankRotationPayload
          [("game_state_id", VStr "state-1"); ("tank_rotation", VNone);
           ("turret_rotation", VNone)]).
Proof. reflexivity. Qed.

(** ** C7: the tank protocols *)

Import Protocols.

(** C7: an object that passes the instance check of [AgentTank] passes the
    one of [PlayerTank]; some object passes the check of [PlayerTank] and
    not the one of [AgentTank]. *)
Theorem agent_tank_is_player_tank :
  (forall o : object, isinstance o AgentTank = true -> isinstance o PlayerTank = true)
  /\ (exists o : object, isinstance o PlayerTank = true /\ isinstance o AgentTank = false).
Proof.
  split.
  - intros o H. unfold isinstance in *. simpl in *.
    repeat (apply andb_prop in H as [? H]).
    repeat (apply andb_true_intro; split); auto.
  - exists [("__instancecheck_tank__", VBool true); ("owner_id", VStr "p2");
            ("direction", VInt 0); ("turret", VNone)].
    split; reflexivity.
Qed.

Lemma agent_tank_is_player_tank_witness :
  let o : object :=
    [("__instancecheck_tank__", VBool true);
     ("__instancecheck_agenttank__", VBool true);
     ("owner_id", VStr "p1"); ("direction", VInt 0); ("turret", VNone);
     ("health", VInt 80)] in
  isinstance o AgentTank = true /\ isinstance o PlayerTank = true.
Proof.
  intros o. split.
  - reflexivity.
  - apply (proj1 agent_tank_is_player_tank o). reflexivity.
Defined.

(** ** Zones *)

Lemma get_default_dict (d : dict) (k : string) :
  get_default (VDict d) k VNone = Ok (status_get d k).
Proof.
  unfold get_default, status_get. destruct (dict_get k d); reflexivity.
Qed.

Lemma RawZone_from_json_status (d s : dict) :
  dict_get "status" d = Some (VDict s) ->
  RawZone_from_json (VDict d) =
  match dict_get "type" s with
  | Some status_type => dataclass_init RawZone (zone_kwargs d s status_type)
  | None => Raise (KeyError "type")
  end.
Proof.
  intros Hs. unfold RawZone_from_json, pop_default. rewrite Hs.
  cbn [bind getitem].
  destruct (dict_get "type" s) as [t|]; [|reflexivity].
  cbn [bind setitem]. rewrite !get_default_dict. reflexivity.
Qed.

Lemma zone_kwargs_get (d s : dict) (t : value) (k : string) :
  In k ["player_id"; "captured_by_id"; "retaken_by_id"; "remaining_ticks"] ->
  dict_get k (zone_kwargs d s t) = Some (status_get s k).
Proof.
  unfold zone_kwargs. simpl.
  intros [<-|[<-|[<-|[<-|[]]]]];
    repeat first [ apply dict_get_set_eq
                 | rewrite dict_get_set_neq by discriminate ].
Qed.

(** The four status-specific slots of a decoded zone hold what the status
    sub-object has under their names, None when it has no such key. *)
Lemma RawZone_status_slots (d s : dict) (r : value) (k : string) :
  dict_get "status" d = Some (VDict s) ->
  RawZone_from_json (VDict d) = Ok r ->
  In k ["player_id"; "captured_by_id"; "retaken_by_id"; "remaining_ticks"] ->
  getattr r k = Ok (status_get s k).
Proof.
  intros Hs Hr Hk. rewrite (RawZone_from_json_status _ _ Hs) in Hr.
  destruct (dict_get "type" s) as [t|]; [|discriminate].
  assert (Hf : find_field k (fields_of RawZone) = Some (optional k)).
  { simpl in Hk. destruct Hk as [<-|[<-|[<-|[<-|[]]]]]; reflexivity. }
  destruct (dataclass_init_getattr _ _ _ _ _ Hr Hf) as (v & Hv & Hg).
  unfold field_value in Hv. cbn [fname optional] in Hv.
  rewrite (zone_kwargs_get d s t k Hk) in Hv.
  injection Hv as <-. exact Hg.
Qed.

(** ** C1: the status fields of a zone *)

(** C1, as the code has it: whatever the status tag, each of the four
    status-specific fields of a decoded zone is the entry of the status
    sub-object under that name, and None when the sub-object has no such
    entry.  So [retaken_by_id] is None for a [being_captured] status that
    carries no such entry, and all four are None for a [neutral] status
    that carries none of them. *)
Theorem zone_status_fields_are_copied :
  forall (d s : dict) (r : value),
    dict_get "status" d = Some (VDict s) ->
    RawZone_from_json (VDict d) = Ok r ->
    getattr r "player_id" =
      Ok (match dict_get "player_id" s with Some v => v | None => VNone end)
    /\ getattr r "captured_by_id" =
      Ok (match dict_get "captured_by_id" s with Some v => v | None => VNone end)
    /\ getattr r "retaken_by_id" =
      Ok (match dict_get "retaken_by_id" s with Some v => v | None => VNone end)
    /\ getattr r "remaining_ticks" =
      Ok (match dict_get "remaining_ticks" s with Some v => v | None => VNone end).
Proof.
  intros d s r Hs Hr.
  split; [|split; [|split]];
    (apply (RawZone_status_slots d s r _ Hs Hr); simpl; auto).
Qed.

Lemma zone_status_fields_are_copied_witness :
  exists r,
    RawZone_from_json (zone_data (VDict [("type", VStr "being_captured");
                                         ("player_id", VStr "p1");
                                         ("remaining_ticks", VInt 5)])) = Ok r
    /\ getattr r "player_id" = Ok (VStr "p1")
    /\ getattr r "captured_by_id" = Ok VNone
    /\ getattr r "retaken_by_id" = Ok VNone
    /\ getattr r "remaining_ticks" = Ok (VInt 5).
Proof.
  eexists. split; [reflexivity|].
  apply (zone_status_fields_are_copied
           [("x", VInt 0); ("y", VInt 0); ("width", VInt 1); ("height", VInt 1);
            ("index", VInt 0);
            ("status", VDict [("type", VStr "being_captured");
                              ("player_id", VStr "p1");
                              ("remaining_ticks", VInt 5)])]
           [("type", VStr "being_captured"); ("player_id", VStr "p1");
            ("remaining_ticks", VInt 5)]);
    reflexivity.
Defined.

(** C1 fails on the code: an entry [retaken_by_id] of a [being_captured]
    status reaches the record, and so does an entry [player_id] of a
    [neutral] status. *)
Lemma zone_status_isolation_counterexample :
  (exists r, RawZone_from_json being_captured_with_retaker = Ok r
             /\ getattr r "status" = Ok (VStr "being_captured")
             /\ getattr r "retaken_by_id" = Ok (VStr "p9"))
  /\ (exists r, RawZone_from_json neutral_with_player = Ok r
                /\ getattr r "status" = Ok (VStr "neutral")
                /\ getattr r "player_id" = Ok (VStr "p1")).
Proof.
  split; eexists; (split; [reflexivity|split; reflexivity]).
Qed.

(** ** Tile objects *)

(** The decoding of an occupant whose tag names an entity class. *)
Lemma RawTileObject_from_json_entity (d : dict) (tag : string) (c : pyclass) :
  dict_get "type" d = Some (VStr tag) ->
  globals_get (raw_class_name (VStr tag)) = Some (GClass c) ->
  issubclass c RawTileEntity = true ->
  RawTileObject_from_json (VDict d) =
  (entity <- tile_entity_from_json c (payload_of d) ;;
   Ok (VInst RawTileObject [("type", VStr tag); ("entity", entity)])).
Proof.
  intros Ht Hg Hsub. unfold RawTileObject_from_json, pop. rewrite Ht.
  cbn [bind]. rewrite Hg, Hsub.
  unfold get_default, payload_of.
  rewrite dict_get_remove_neq by discriminate.
  destruct (dict_get "payload" d) as [p|]; cbn [bind];
    destruct (tile_entity_from_json c _); reflexivity.
Qed.

(** The decoding of an occupant whose tag names no entity class. *)
Lemma RawTileObject_from_json_unknown (d : dict) (tag : string) :
  dict_get "type" d = Some (VStr tag) ->
  ~ In (pascalize tag) ["TileEntity"; "Wall"; "Bullet"; "Tank"] ->
  RawTileObject_from_json (VDict d) =
  Raise (ValueError (Text ("Unknown tile object class: Raw" ++ pascalize tag))).
Proof.
  intros Ht Hn. unfold RawTileObject_from_json, pop. rewrite Ht.
  cbn [bind raw_class_name globals_get].
  generalize dependent (pascalize tag). intros p Hn.
  cbn.
  repeat match goal with
         | |- context [String.eqb p ?s] =>
             let E := fresh "E" in
             destruct (String.eqb p s) eqn:E;
             [apply String.eqb_eq in E; subst p;
              try (exfalso; apply Hn; simpl; tauto); try reflexivity
             |]
         end.
  reflexivity.
Qed.

(** ** C4: unknown occupant tags *)

(** C4, as the code has it: when the Pascal-cased tag is none of
    [TileEntity], [Wall], [Bullet], [Tank], decoding the occupant raises a
    ValueError whose message names the class looked for, [Raw] followed by
    the Pascal-cased tag, and no occupant record is produced. *)
Theorem unknown_tag_is_rejected :
  forall (d : dict) (tag : string),
    dict_get "type" d = Some (VStr tag) ->
    ~ In (pascalize tag) ["TileEntity"; "Wall"; "Bullet"; "Tank"] ->
    RawTileObject_from_json (VDict d) =
    Raise (ValueError (Text ("Unknown tile object class: Raw" ++ pascalize tag))).
Proof.
  intros d tag Ht Hn. now apply RawTileObject_from_json_unknown.
Qed.

(** ** C6: the dispatch on the occupant tag *)

(** C6: for the tags wall, bullet and tank the class looked up under the
    Pascal-cased, prefixed name is RawWall, RawBullet and RawTank, the
    occupant is the result of that class's decoder on the payload
    sub-object, and the decoder of a tank decodes the turret sub-record
    first and constructs the tank from the decoded turret. *)
Theorem occupant_tag_dispatch :
  (forall (tag : string) (c : pyclass) (f : value -> result value) (d : dict),
      In (tag, c, f) occupant_decoders ->
      dict_get "type" d = Some (VStr tag) ->
      globals_get (raw_class_name (VStr tag)) = Some (GClass c)
      /\ RawTileObject_from_json (VDict d) =
         (entity <- f (payload_of d) ;;
          Ok (VInst RawTileObject [("type", VStr tag); ("entity", entity)])))
  /\ (forall (d : dict) (turret_data : value),
         dict_get "turret" d = Some turret_data ->
         RawTank_from_json (VDict d) =
         (turret <- RawTurret_from_json turret_data ;;
          dataclass_init RawTank (dict_set "turret" turret d))).
Proof.
  split.
  - intros tag c f d Hin Ht. simpl in Hin.
    destruct Hin as [H|[H|[H|[]]]]; injection H as <- <- <-;
      (split; [reflexivity|]);
      rewrite (RawTileObject_from_json_entity d _ _ Ht eq_refl eq_refl);
      reflexivity.
  - intros d turret_data Ht. unfold RawTank_from_json, getitem. rewrite Ht.
    cbn [bind]. destruct (RawTurret_from_json turret_data); reflexivity.
Qed.

(** ** C10: occupants without payload *)

(** C10: an occupant object without the key [payload] decodes as if the
    payload were the empty dict: a wall is produced, while a bullet fails
    for its missing [id] and a tank for its missing [turret]. *)
Theorem missing_payload_is_empty :
  forall d : dict,
    dict_get "payload" d = None ->
    (dict_get "type" d = Some (VStr "wall") ->
     RawTileObject_from_json (VDict d) =
     Ok (VInst RawTileObject [("type", VStr "wall"); ("entity", VInst RawWall [])]))
    /\ (dict_get "type" d = Some (VStr "bullet") ->
        RawTileObject_from_json (VDict d) = Raise TypeError)
    /\ (dict_get "type" d = Some (VStr "tank") ->
        RawTileObject_from_json (VDict d) = Raise (KeyError "turret")).
Proof.
  intros d Hp. split; [|split]; intros Ht;
    rewrite (RawTileObject_from_json_entity d _ _ Ht eq_refl eq_refl);
    unfold payload_of; rewrite Hp; reflexivity.
Qed.

(** ** C8: optional fields *)

Lemma optional_find_field (c : pyclass) (k : string) :
  In (optional k) (fields_of c) -> find_field k (fields_of c) = Some (optional k).
Proof.
  unfold optional.
  destruct c; simpl; intros H;
    repeat (destruct H as [H|H]; [inversion H; subst; reflexivity|]);
    contradiction.
Qed.

Lemma optional_default (c : pyclass) (d : dict) (r : value) (k : string) :
  In (optional k) (fields_of c) ->
  dict_get k d = None ->
  dataclass_init c d = Ok r ->
  getattr r k = Ok VNone.
Proof.
  intros Hin Hk Hr.
  destruct (dataclass_init_getattr _ _ _ _ _ Hr (optional_find_field _ _ Hin))
    as (v & Hv & Hg).
  unfold field_value in Hv. cbn [fname fdefault optional] in Hv.
  rewrite Hk in Hv. injection Hv as <-. exact Hg.
Qed.

(** C8: a field declared with the default None that the input mapping
    lacks is None in the decoded record: for the records decoded from their
    own mapping (player, bullet, turret), for the health of a tank, and for
    the four status fields of a zone, which are read in the status
    sub-object. *)
Theorem missing_optional_fields_are_None :
  (forall (c : pyclass) (f : value -> result value) (d : dict) (r : value) (k : string),
      In (c, f) plain_decoders ->
      In (optional k) (fields_of c) ->
      dict_get k d = None ->
      f (VDict d) = Ok r ->
      getattr r k = Ok VNone)
  /\ (forall (d : dict) (r : value),
         dict_get "health" d = None ->
         RawTank_from_json (VDict d) = Ok r ->
         getattr r "health" = Ok VNone)
  /\ (forall (d s : dict) (r : value) (k : string),
         dict_get "status" d = Some (VDict s) ->
         In k ["player_id"; "captured_by_id"; "retaken_by_id"; "remaining_ticks"] ->
         dict_get k s = None ->
         RawZone_from_json (VDict d) = Ok r ->
         getattr r k = Ok VNone).
Proof.
  split; [|split].
  - intros c f d r k Hdec Hopt Hk Hr.
    apply plain_decoder_construct in Hdec as [-> _].
    rewrite construct_dict in Hr. eapply optional_default; eauto.
  - intros d r Hk Hr. unfold RawTank_from_json in Hr.
    destruct (getitem (VDict d) "turret") as [t|]; [|discriminate].
    cbn [bind] in Hr.
    destruct (RawTurret_from_json t) as [turret|]; [|discriminate].
    cbn [bind setitem] in Hr. rewrite construct_dict in Hr.
    apply (optional_default RawTank (dict_set "turret" turret d)); auto.
    + simpl. auto.
    + rewrite dict_get_set_neq by discriminate. exact Hk.
  - intros d s r k Hs Hin Hk Hr.
    rewrite (RawZone_status_slots d s r k Hs Hr Hin).
    unfold status_get. now rewrite Hk.
Qed.

Lemma missing_optional_fields_are_None_witness :
  (exists r, RawPlayer_from_json (VDict (player_data "p1")) = Ok r
             /\ getattr r "score" = Ok VNone
             /\ getattr r "ping" = Ok VNone
             /\ getattr r "ticks_to_regen" = Ok VNone)
  /\ (exists r, RawTurret_from_json (VDict [("direction", VInt 1)]) = Ok r
                /\ getattr r "bullet_count" = Ok VNone
                /\ getattr r "ticks_to_regen_bullet" = Ok VNone).
Proof.
  pose proof (proj1 missing_optional_fields_are_None) as H.
  split; eexists; (split; [reflexivity|]).
  - split; [|split].
    + apply (H RawPlayer RawPlayer_from_json (player_data "p1") _ "score");
        simpl; auto 10.
    + apply (H RawPlayer RawPlayer_from_json (player_data "p1") _ "ping");
        simpl; auto 10.
    + apply (H RawPlayer RawPlayer_from_json (player_data "p1") _ "ticks_to_regen");
        simpl; auto 10.
  - split.
    + apply (H RawTurret RawTurret_from_json [("direction", VInt 1)] _ "bullet_count");
        simpl; auto 10.
    + apply (H RawTurret RawTurret_from_json [("direction", VInt 1)] _
               "ticks_to_regen_bullet");
        simpl; auto 10.
Defined.

(** ** C9: frozen records *)

Ltac peel H :=
  repeat match type of H with
         | bind ?c _ = Ok _ =>
             let E := fresh "E" in
             destruct c eqn:E; cbn [bind] in H; [|discriminate H]
         | (let (_, _) := ?p in _) = Ok _ => destruct p
         end.

Lemma all_dataclasses_frozen (c : pyclass) :
  is_dataclass c = true -> frozen c = true.
Proof. destruct c; simpl; auto. Qed.

Lemma dataclass_init_slots (c : pyclass) (kw : dict) (r : value) :
  dataclass_init c kw = Ok r ->
  exists slots, r = VInst c slots /\ dict_keys slots = field_names c.
Proof.
  unfold dataclass_init.
  destruct (is_abstract c); [discriminate|].
  destruct (forallb (known_keyword c) (dict_keys kw)); [|discriminate].
  destruct (mapM (bind_field kw) (fields_of c)) as [slots|e] eqn:Hm; simpl;
    [|discriminate].
  intros H. injection H as <-. exists slots. split; auto.
  now apply mapM_bind_field_keys in Hm.
Qed.

Lemma construct_frozen (c : pyclass) (j r : value) :
  is_dataclass c = true ->
  construct c j = Ok r ->
  exists c' slots,
    r = VInst c' slots /\ frozen c' = true /\ dict_keys slots = field_names c'.
Proof.
  intros Hd Hr. unfold construct in Hr.
  destruct j; simpl in Hr; try discriminate.
  apply dataclass_init_slots in Hr as (slots & -> & Hk).
  exists c, slots. split; [reflexivity|]. split; [|exact Hk].
  now apply all_dataclasses_frozen.
Qed.

Lemma RawTileObject_from_json_inst (j r : value) :
  RawTileObject_from_json j = Ok r ->
  exists slots,
    r = VInst RawTileObject slots /\ dict_keys slots = field_names RawTileObject.
Proof.
  unfold RawTileObject_from_json. intros H. peel H.
  destruct (globals_get _) as [[c| |]|]; try discriminate.
  destruct (issubclass c RawTileEntity); [|discriminate].
  peel H. now apply dataclass_init_slots in H.
Qed.

Lemma decoder_result_frozen (f : value -> result value) (j r : value) :
  In f decoders ->
  f j = Ok r ->
  exists c slots,
    r = VInst c slots /\ frozen c = true /\ dict_keys slots = field_names c.
Proof.
  unfold decoders. simpl.
  intros [<-|[<-|[<-|[<-|[<-|[<-|[<-|[<-|[<-|[<-|[<-|[<-|[<-|[]]]]]]]]]]]]]] H;
    try (apply construct_frozen in H; [exact H | reflexivity]).
  - unfold RawMap_from_json in H. peel H.
    apply construct_frozen in H; [exact H | reflexivity].
  - apply RawTileObject_from_json_inst in H as (slots & -> & Hk).
    exists RawTileObject, slots. auto.
  - unfold RawTank_from_json in H. peel H.
    apply construct_frozen in H; [exact H | reflexivity].
  - unfold RawZone_from_json in H. peel H.
    apply construct_frozen in H; [exact H | reflexivity].
  - unfold LobbyDataPayload_from_json in H. peel H.
    apply construct_frozen in H; [exact H | reflexivity].
  - unfold GameStatePayload_from_json in H. peel H.
    apply construct_frozen in H; [exact H | reflexivity].
  - unfold GameEndPayload_from_json in H. peel H.
    apply construct_frozen in H; [exact H | reflexivity].
Qed.

(** C9: every dataclass of the module is frozen: assigning to a field of
    an instance, or deleting it, raises FrozenInstanceError, and for a name
    that is no field the generated method raises TypeError, so that no
    assignment and no deletion goes through.  What a decoder returns is
    such an instance, with the declared fields of its class for
    attributes: none of them can be assigned or deleted. *)
Theorem decoded_records_are_immutable :
  (forall (c : pyclass) (slots : dict) (name : string) (v : value),
      is_dataclass c = true ->
      setattr (VInst c slots) name v =
        Raise (if known_keyword c name then FrozenInstanceError else TypeError)
      /\ delattr (VInst c slots) name =
        Raise (if known_keyword c name then FrozenInstanceError else TypeError))
  /\ (forall (f : value -> result value) (j r : value),
         In f decoders ->
         f j = Ok r ->
         exists c slots,
           r = VInst c slots
           /\ dict_keys slots = field_names c
           /\ forall (name : string) (v : value),
               (In name (dict_keys slots) ->
                setattr r name v = Raise FrozenInstanceError
                /\ delattr r name = Raise FrozenInstanceError)
               /\ is_ok (setattr r name v) = false
               /\ is_ok (delattr r name) = false).
Proof.
  split.
  - intros c slots name v Hd. apply all_dataclasses_frozen in Hd.
    simpl. rewrite Hd. destruct (known_keyword c name); auto.
  - intros f j r Hf Hr.
    destruct (decoder_result_frozen f j r Hf Hr) as (c & slots & -> & Hfr & Hk).
    exists c, slots. split; [reflexivity|]. split; [exact Hk|].
    intros name v. simpl. rewrite Hfr. split.
    + intros Hin. rewrite Hk in Hin.
      assert (Hkn : known_keyword c name = true).
      { unfold known_keyword. apply existsb_exists.
        exists name. split; auto. apply String.eqb_refl. }
      rewrite Hkn. auto.
    + destruct (known_keyword c name); auto.
Qed.

(** ** Outcomes that do not depend on the values stored *)

Lemma outcome_bind {A B : Type} (c c' : result A) (k k' : A -> result B) :
  outcome c = outcome c' ->
  (forall a a', outcome (k a) = outcome (k' a')) ->
  outcome (bind c k) = outcome (bind c' k').
Proof.
  intros Hc Hk. destruct c, c'; simpl in *; try discriminate; auto.
Qed.

Lemma outcome_bind_same {A B : Type} (c : result A) (k k' : A -> result B) :
  (forall a, outcome (k a) = outcome (k' a)) ->
  outcome (bind c k) = outcome (bind c k').
Proof.
  intros Hk. destruct c; simpl; auto.
Qed.

Lemma dict_mem_keys (k : string) (d : dict) :
  dict_mem k d = existsb (String.eqb k) (dict_keys d).
Proof.
  unfold dict_mem, dict_keys.
  induction d as [|[k0 v0] d IH]; simpl; auto.
  destruct (String.eqb k k0); auto.
Qed.

Lemma dict_keys_set (k : string) (v v' : value) (d d' : dict) :
  dict_keys d = dict_keys d' ->
  dict_keys (dict_set k v d) = dict_keys (dict_set k v' d').
Proof.
  unfold dict_keys. revert d'.
  induction d as [|[k0 v0] d IH]; intros [|[k1 v1] d']; simpl;
    try discriminate; auto.
  intros H. injection H as -> H.
  destruct (String.eqb k k1); simpl; f_equal; auto.
Qed.

Lemma has_value_keys (d : dict) (f : field) :
  has_value d f =
  dict_mem (fname f) d || match fdefault f with Some _ => true | None => false end.
Proof.
  unfold has_value, field_value, dict_mem.
  destruct (dict_get (fname f) d); reflexivity.
Qed.

Lemma dataclass_init_outcome (c : pyclass) (d : dict) :
  outcome (dataclass_init c d) =
  if is_ok (dataclass_init c d) then None else Some TypeError.
Proof.
  destruct (dataclass_init c d) as [r|e] eqn:H; simpl; auto.
  apply dataclass_init_raise in H. now subst.
Qed.

(** Whether a construction succeeds depends on the keywords only. *)
Lemma dataclass_init_keys (c : pyclass) (d d' : dict) :
  dict_keys d = dict_keys d' ->
  outcome (dataclass_init c d) = outcome (dataclass_init c d').
Proof.
  intros Hk. rewrite !dataclass_init_outcome, !dataclass_init_ok, Hk.
  replace (forallb (fun f => match field_value d f with Some _ => true | None => false end)
             (fields_of c))
    with (forallb (fun f => match field_value d' f with Some _ => true | None => false end)
            (fields_of c)); auto.
  induction (fields_of c) as [|f fs IH]; simpl; auto.
  rewrite IH. f_equal.
  change (has_value d' f = has_value d f).
  now rewrite !has_value_keys, !dict_mem_keys, Hk.
Qed.

Lemma same_but_update (k : string) (v : value) (d : dict) :
  dict_mem k d = true -> same_but k (dict_set k v d) d.
Proof.
  intros Hm. split.
  - now apply dict_keys_set_present.
  - intros k' Hne. apply dict_get_set_neq. congruence.
Qed.

Lemma same_but_set (k k0 : string) (v : value) (d d' : dict) :
  same_but k d d' -> same_but k (dict_set k0 v d) (dict_set k0 v d').
Proof.
  intros [Hk Hg]. split.
  - now apply dict_keys_set.
  - intros k' Hne. destruct (String.eqb k0 k') eqn:E.
    + apply String.eqb_eq in E. subst k'. now rewrite !dict_get_set_eq.
    + apply String.eqb_neq in E. rewrite !dict_get_set_neq by auto. auto.
Qed.

Lemma same_but_set_own (k : string) (v v' : value) (d d' : dict) :
  same_but k d d' -> same_but k (dict_set k v d) (dict_set k v' d').
Proof.
  intros [Hk Hg]. split.
  - now apply dict_keys_set.
  - intros k' Hne. rewrite !dict_get_set_neq by congruence. auto.
Qed.

Lemma dict_mem_get (k : string) (d : dict) (x : value) :
  dict_get k d = Some x -> dict_mem k d = true.
Proof. unfold dict_mem. now intros ->. Qed.

(** ** Owners are not looked at *)

Lemma tile_entity_from_json_reown (owner : value) (c : pyclass) (p : value) :
  outcome (tile_entity_from_json c (reown_payload owner p)) =
  outcome (tile_entity_from_json c p).
Proof.
  unfold reown_payload, update_key.
  destruct p as [| | | | | | |d|]; try reflexivity.
  destruct (dict_get "owner_id" d) as [x|] eqn:Hx; [|reflexivity].
  pose proof (same_but_update "owner_id" owner d (dict_mem_get _ _ _ Hx)) as [Hk Hg].
  destruct c; try reflexivity; cbn [tile_entity_from_json].
  - apply dataclass_init_keys, Hk.
  - apply dataclass_init_keys, Hk.
  - unfold RawTank_from_json, getitem.
    rewrite (Hg "turret") by discriminate.
    destruct (dict_get "turret" d) as [t|]; [|reflexivity].
    cbn [bind]. apply outcome_bind_same. intros turret.
    cbn [bind setitem]. rewrite !construct_dict.
    apply dataclass_init_keys, dict_keys_set, Hk.
Qed.

Lemma RawTileObject_from_json_reown (owner : value) (obj : value) :
  outcome (RawTileObject_from_json (reown_object owner obj)) =
  outcome (RawTileObject_from_json obj).
Proof.
  unfold reown_object, update_key.
  destruct obj as [| | | | | | |d|]; try reflexivity.
  destruct (dict_get "payload" d) as [p|] eqn:Hp; [|reflexivity].
  unfold RawTileObject_from_json, pop.
  rewrite dict_get_set_neq by discriminate.
  destruct (dict_get "type" d) as [t|]; [|reflexivity].
  cbn [bind].
  destruct (globals_get (raw_class_name t)) as [[c| |]|]; try reflexivity.
  destruct (issubclass c RawTileEntity); [|reflexivity].
  unfold get_default.
  rewrite !dict_get_remove_neq by discriminate.
  rewrite dict_get_set_eq, Hp. cbn [bind].
  apply outcome_bind.
  - apply tile_entity_from_json_reown.
  - reflexivity.
Qed.

Lemma mapM_outcome (f : value -> result value) (g : value -> value) (l : list value) :
  (forall x, outcome (f (g x)) = outcome (f x)) ->
  outcome (mapM f (map g l)) = outcome (mapM f l).
Proof.
  intros Hf. induction l as [|x l IH]; simpl; auto.
  apply outcome_bind; auto.
  intros a a'. apply outcome_bind; auto.
Qed.

Lemma tuple_of_outcome (f : value -> result value) (g : value -> value) (o : value) :
  (forall x, outcome (f (g x)) = outcome (f x)) ->
  outcome (tuple_of f (map_list g o)) = outcome (tuple_of f o).
Proof.
  intros Hf. unfold tuple_of, map_list.
  destruct o; try reflexivity.
  cbn [iter bind]. apply outcome_bind; [now apply mapM_outcome|reflexivity].
Qed.

Lemma tiles_reown (owner : value) (rows : value) :
  outcome (tuple_of (tuple_of (tuple_of RawTileObject_from_json)) (reown_tiles owner rows)) =
  outcome (tuple_of (tuple_of (tuple_of RawTileObject_from_json)) rows).
Proof.
  unfold reown_tiles.
  apply tuple_of_outcome. intros row.
  apply tuple_of_outcome. intros tile.
  apply tuple_of_outcome. intros obj.
  apply RawTileObject_from_json_reown.
Qed.

Lemma RawMap_after_tiles_same_but (d d' : dict) :
  same_but "tiles" d d' ->
  outcome (RawMap_after_tiles (VDict d)) = outcome (RawMap_after_tiles (VDict d')).
Proof.
  intros H. unfold RawMap_after_tiles, getitem.
  rewrite (proj2 H "zones") by discriminate.
  destruct (dict_get "zones" d') as [z|]; [|reflexivity].
  cbn [bind]. apply outcome_bind_same. intros zones. cbn [bind setitem].
  pose proof (same_but_set "tiles" "zones" zones _ _ H) as H1.
  rewrite (proj2 H1 "visibility") by discriminate.
  destruct (dict_get "visibility" _) as [vis|]; [|reflexivity].
  cbn [bind]. apply outcome_bind_same. intros visibility. cbn [bind setitem].
  rewrite !construct_dict. apply dataclass_init_keys.
  apply dict_keys_set, H1.
Qed.

Lemma RawMap_from_json_unfold (json_data : value) :
  RawMap_from_json json_data =
  (rows <- getitem json_data "tiles" ;;
   tiles <- tuple_of (tuple_of (tuple_of RawTileObject_from_json)) rows ;;
   json_data <- setitem json_data "tiles" tiles ;;
   RawMap_after_tiles json_data).
Proof. reflexivity. Qed.

Lemma RawMap_from_json_reown (owner : value) (m : value) :
  outcome (RawMap_from_json (reown_map owner m)) = outcome (RawMap_from_json m).
Proof.
  unfold reown_map, update_key.
  destruct m as [| | | | | | |d|]; try reflexivity.
  destruct (dict_get "tiles" d) as [rows|] eqn:Hrows; [|reflexivity].
  rewrite !RawMap_from_json_unfold. unfold getitem.
  rewrite dict_get_set_eq, Hrows. cbn [bind].
  apply outcome_bind; [apply tiles_reown|].
  intros tiles tiles'. cbn [bind setitem].
  apply RawMap_after_tiles_same_but.
  apply same_but_set_own, same_but_update.
  eapply dict_mem_get; eauto.
Qed.

Lemma GameStatePayload_from_json_reown (owner : value) (json_data : value) :
  outcome (GameStatePayload_from_json (reown_state owner json_data)) =
  outcome (GameStatePayload_from_json json_data).
Proof.
  unfold reown_state, update_key.
  destruct json_data as [| | | | | | |d|]; try reflexivity.
  destruct (dict_get "map" d) as [m|] eqn:Hm; [|reflexivity].
  pose proof (same_but_update "map" (reown_map owner m) d (dict_mem_get _ _ _ Hm)) as H.
  unfold GameStatePayload_from_json, getitem.
  rewrite (proj2 H "players") by discriminate.
  destruct (dict_get "players" d) as [ps|]; [|reflexivity].
  cbn [bind]. apply outcome_bind_same. intros players. cbn [bind setitem].
  rewrite !(dict_get_set_neq "players" "map") by discriminate.
  rewrite dict_get_set_eq, Hm. cbn [bind].
  apply outcome_bind; [apply RawMap_from_json_reown|].
  intros map map'. rewrite !construct_dict.
  apply dataclass_init_keys, dict_keys_set, dict_keys_set, H.
Qed.

(** * Further properties of the decoders *)

(** ** Records built from a mapping *)

Lemma dict_get_in_keys (k : string) (d : dict) (v : value) :
  dict_get k d = Some v -> In k (dict_keys d).
Proof.
  unfold dict_keys. induction d as [|[k0 v0] d IH]; simpl; [discriminate|].
  destruct (String.eqb k k0) eqn:E.
  - apply String.eqb_eq in E. auto.
  - auto.
Qed.

Lemma known_keyword_find (c : pyclass) (k : string) :
  known_keyword c k = true ->
  exists f, find_field k (fields_of c) = Some f /\ fname f = k.
Proof.
  unfold known_keyword, field_names, find_field.
  induction (fields_of c) as [|f fs IH]; simpl; [discriminate|].
  destruct (String.eqb k (fname f)) eqn:E.
  - apply String.eqb_eq in E. eauto.
  - simpl. exact IH.
Qed.

Lemma dataclass_init_known (c : pyclass) (d : dict) (r : value) (k : string) :
  dataclass_init c d = Ok r -> In k (dict_keys d) -> known_keyword c k = true.
Proof.
  intros Hr Hin.
  assert (Hok : is_ok (dataclass_init c d) = true) by now rewrite Hr.
  rewrite dataclass_init_ok in Hok.
  apply andb_prop in Hok as [Hok _]. apply andb_prop in Hok as [_ Hok].
  rewrite forallb_forall in Hok. auto.
Qed.

(** Every keyword reaches the slot of its name. *)
Lemma dataclass_init_keeps (c : pyclass) (d : dict) (r : value) (k : string) (v : value) :
  dataclass_init c d = Ok r -> dict_get k d = Some v -> getattr r k = Ok v.
Proof.
  intros Hr Hk.
  pose proof (dataclass_init_known _ _ _ _ Hr (dict_get_in_keys _ _ _ Hk)) as Hkn.
  destruct (known_keyword_find _ _ Hkn) as (f & Hf & Hname).
  destruct (dataclass_init_getattr _ _ _ _ _ Hr Hf) as (v' & Hv & Hg).
  unfold field_value in Hv. rewrite Hname, Hk in Hv.
  injection Hv as <-. exact Hg.
Qed.

(** X1: a record decoded by unpacking a mapping into the constructor holds
    every entry of the mapping, unchanged, in the field of the same name. *)
Theorem decoded_record_keeps_entries :
  forall (c : pyclass) (d : dict) (r : value) (k : string) (v : value),
    construct c (VDict d) = Ok r ->
    dict_get k d = Some v ->
    getattr r k = Ok v.
Proof.
  intros c d r k v Hr Hk. rewrite construct_dict in Hr.
  eapply dataclass_init_keeps; eauto.
Qed.

Lemma decoded_record_keeps_entries_witness :
  exists r,
    RawBullet_from_json
      (VDict [("id", VInt 3); ("speed", VFloat 4611686018427387904);
              ("direction", VInt 2)]) = Ok r
    /\ getattr r "speed" = Ok (VFloat 4611686018427387904).
Proof.
  eexists. split; [reflexivity|].
  apply (decoded_record_keeps_entries RawBullet
           [("id", VInt 3); ("speed", VFloat 4611686018427387904);
            ("direction", VInt 2)]); reflexivity.
Defined.

(** X2: a mapping that lacks a field declared without default is rejected
    with a TypeError, whatever else it holds. *)
Theorem missing_required_field_is_rejected :
  forall (c : pyclass) (d : dict) (k : string),
    In (required k) (fields_of c) ->
    dict_get k d = None ->
    construct c (VDict d) = Raise TypeError.
Proof.
  intros c d k Hin Hk. rewrite construct_dict.
  destruct (dataclass_init c d) as [r|e] eqn:Hr.
  - exfalso.
    assert (Hok : is_ok (dataclass_init c d) = true) by now rewrite Hr.
    rewrite dataclass_init_ok in Hok. apply andb_prop in Hok as [_ Hok].
    rewrite forallb_forall in Hok. specialize (Hok _ Hin).
    unfold field_value in Hok. cbn [fname fdefault required] in Hok.
    rewrite Hk in Hok. discriminate.
  - apply dataclass_init_raise in Hr. now subst.
Qed.

Lemma missing_required_field_is_rejected_witness :
  RawPlayer_from_json (VDict [("id", VStr "p1"); ("color", VInt 255)]) = Raise TypeError.
Proof.
  apply (missing_required_field_is_rejected RawPlayer
           [("id", VStr "p1"); ("color", VInt 255)] "nickname").
  - simpl. auto.
  - reflexivity.
Defined.

(** X3: the fields of a decoded record are the declared ones, in the order
    of the declaration, whatever the order of the keys in the input. *)
Theorem decoded_record_has_declared_fields :
  forall (c : pyclass) (j r : value),
    construct c j = Ok r ->
    exists slots, r = VInst c slots /\ dict_keys slots = field_names c.
Proof.
  intros c j r. unfold construct.
  destruct j; simpl; try discriminate.
  unfold dataclass_init.
  destruct (is_abstract c); [discriminate|].
  destruct (forallb _ _); [|discriminate].
  destruct (mapM (bind_field entries) (fields_of c)) as [slots|] eqn:Hm;
    simpl; [|discriminate].
  intros H. injection H as <-. exists slots. split; auto.
  now apply mapM_bind_field_keys in Hm.
Qed.

Lemma decoded_record_has_declared_fields_witness :
  exists slots,
    RawTurret_from_json (VDict [("bullet_count", VInt 2); ("direction", VInt 1)])
    = Ok (VInst RawTurret slots)
    /\ dict_keys slots = ["direction"; "bullet_count"; "ticks_to_regen_bullet"].
Proof.
  destruct (decoded_record_has_declared_fields RawTurret
              (VDict [("bullet_count", VInt 2); ("direction", VInt 1)])
              (VInst RawTurret [("direction", VInt 1); ("bullet_count", VInt 2);
                                ("ticks_to_regen_bullet", VNone)]) eq_refl)
    as (slots & Heq & Hk).
  exists slots. split; [|exact Hk]. rewrite <- Heq. reflexivity.
Defined.

(** ** Occupants *)

(** X4: of an occupant object only the entries [type] and [payload] are
    read: two objects that agree on them decode alike, whatever other keys
    they carry. *)
Theorem occupant_reads_type_and_payload_only :
  forall d d' : dict,
    dict_get "type" d = dict_get "type" d' ->
    dict_get "payload" d = dict_get "payload" d' ->
    RawTileObject_from_json (VDict d) = RawTileObject_from_json (VDict d').
Proof.
  intros d d' Ht Hp. unfold RawTileObject_from_json, pop. rewrite Ht.
  destruct (dict_get "type" d') as [t|]; [|reflexivity].
  cbn [bind].
  destruct (globals_get (raw_class_name t)) as [[c| |]|]; try reflexivity.
  destruct (issubclass c RawTileEntity); [|reflexivity].
  unfold get_default.
  rewrite !dict_get_remove_neq by discriminate. now rewrite Hp.
Qed.

Lemma tile_entity_from_json_inst (c : pyclass) (p entity : value) :
  issubclass c RawTileEntity = true ->
  tile_entity_from_json c p = Ok entity ->
  (c = RawTileEntity /\ entity = VNone)
  \/ (In c [RawWall; RawBullet; RawTank] /\ exists slots, entity = VInst c slots).
Proof.
  intros Hsub H. destruct c; try discriminate Hsub; cbn [tile_entity_from_json] in H.
  - left. split; congruence.
  - right. split; [simpl; auto|]. now apply construct_inst in H.
  - right. split; [simpl; auto|]. now apply construct_inst in H.
  - right. split; [simpl; auto|].
    unfold RawTank_from_json in H. peel H. now apply construct_inst in H.
Qed.

Lemma str_tag_of_known_class (t : value) (g : global) :
  globals_get (raw_class_name t) = Some g ->
  exists tag, t = VStr tag /\ assoc ("Raw" ++ pascalize tag) module_globals = Some g.
Proof.
  destruct t; simpl; try discriminate. eauto.
Qed.

Lemma entity_class_names (p : string) (c : pyclass) :
  assoc ("Raw" ++ p) module_globals = Some (GClass c) ->
  issubclass c RawTileEntity = true ->
  In (p, c) [("TileEntity", RawTileEntity); ("Wall", RawWall);
             ("Bullet", RawBullet); ("Tank", RawTank)].
Proof.
  cbn.
  repeat match goal with
         | |- context [String.eqb p ?s] =>
             let E := fresh "E" in
             destruct (String.eqb p s) eqn:E;
             [apply String.eqb_eq in E; subst p;
              intros H; injection H as <-; intros Hs;
              try discriminate Hs; simpl; tauto
             |]
         end.
  discriminate.
Qed.

(** X5: when the decoding of an occupant succeeds, its input is a mapping
    with a str tag, the record holds that tag, and the entity is an instance
    of the class the Pascal-cased tag names among RawWall, RawBullet and
    RawTank, or None when that name is TileEntity. *)
Theorem decoded_occupant_shape :
  forall j r : value,
    RawTileObject_from_json j = Ok r ->
    exists (d : dict) (tag : string) (entity : value),
      j = VDict d
      /\ dict_get "type" d = Some (VStr tag)
      /\ r = VInst RawTileObject [("type", VStr tag); ("entity", entity)]
      /\ ((pascalize tag = "TileEntity" /\ entity = VNone)
          \/ exists c slots,
               In (pascalize tag, c)
                  [("Wall", RawWall); ("Bullet", RawBullet); ("Tank", RawTank)]
               /\ entity = VInst c slots).
Proof.
  intros j r H. unfold RawTileObject_from_json in H.
  destruct (pop j "type") as [[t rest]|] eqn:Hpop; cbn [bind] in H; [|discriminate].
  destruct j; try discriminate Hpop. rename entries into d.
  unfold pop in Hpop.
  destruct (dict_get "type" d) as [t'|] eqn:Ht; [|discriminate].
  injection Hpop as -> <-.
  destruct (globals_get (raw_class_name t)) as [[c| |]|] eqn:Hg; try discriminate.
  destruct (issubclass c RawTileEntity) eqn:Hsub; [|discriminate].
  destruct (str_tag_of_known_class _ _ Hg) as (tag & -> & Hassoc).
  pose proof (entity_class_names _ _ Hassoc Hsub) as Hin.
  peel H.
  destruct (tile_entity_from_json_inst _ _ _ Hsub E0) as [[-> ->]|[Hc [slots ->]]].
  - simpl in H. injection H as <-.
    exists d, tag, VNone.
    split; [reflexivity|]. split; [exact Ht|]. split; [reflexivity|].
    left. split; auto.
    simpl in Hin.
    destruct Hin as [Hin|[Hin|[Hin|[Hin|[]]]]]; congruence.
  - simpl in H. injection H as <-.
    exists d, tag, (VInst c slots).
    split; [reflexivity|]. split; [exact Ht|]. split; [reflexivity|].
    right. exists c, slots. split; auto.
    simpl in Hin, Hc |- *.
    destruct Hin as [Hin|[Hin|[Hin|[Hin|[]]]]]; auto.
    injection Hin as _ <-.
    destruct Hc as [Hc|[Hc|[Hc|[]]]]; discriminate Hc.
Qed.

(** X6: an occupant tagged wall decodes exactly when its payload is absent
    or the empty mapping: a wall has no field to receive an entry. *)
Theorem wall_payload_must_be_empty :
  forall d : dict,
    dict_get "type" d = Some (VStr "wall") ->
    (is_ok (RawTileObject_from_json (VDict d)) = true <-> payload_of d = VDict []).
Proof.
  intros d Ht.
  rewrite (RawTileObject_from_json_entity d _ _ Ht eq_refl eq_refl).
  cbn [tile_entity_from_json]. unfold RawWall_from_json, construct.
  destruct (payload_of d) as [| | | | | | |p|]; simpl;
    try (split; intros H; discriminate H).
  destruct p as [|[k v] p]; simpl.
  - split; auto.
  - split; intros H; discriminate H.
Qed.

(** X7: a decoded tank holds the record RawTurret.from_json makes of its
    [turret] entry, and every other entry of the input unchanged. *)
Theorem decoded_tank_fields :
  forall (d : dict) (r : value),
    RawTank_from_json (VDict d) = Ok r ->
    (exists turret_data turret,
        dict_get "turret" d = Some turret_data
        /\ RawTurret_from_json turret_data = Ok turret
        /\ getattr r "turret" = Ok turret)
    /\ (forall k v, k <> "turret" -> dict_get k d = Some v -> getattr r k = Ok v).
Proof.
  intros d r H. unfold RawTank_from_json, getitem in H.
  destruct (dict_get "turret" d) as [t|] eqn:Ht; [|discriminate].
  cbn [bind] in H.
  destruct (RawTurret_from_json t) as [turret|] eqn:Hturret; [|discriminate].
  cbn [bind setitem] in H. rewrite construct_dict in H.
  split.
  - exists t, turret. repeat split; auto.
    eapply dataclass_init_keeps; eauto. apply dict_get_set_eq.
  - intros k v Hne Hk. eapply dataclass_init_keeps; eauto.
    rewrite dict_get_set_neq by congruence. exact Hk.
Qed.

Lemma decoded_tank_fields_witness :
  exists r,
    RawTank_from_json
      (VDict [("owner_id", VStr "p1"); ("direction", VInt 3);
              ("turret", VDict [("direction", VInt 1)]); ("health", VInt 80)]) = Ok r
    /\ getattr r "owner_id" = Ok (VStr "p1")
    /\ getattr r "health" = Ok (VInt 80).
Proof.
  eexists. split; [reflexivity|].
  pose proof (proj2 (decoded_tank_fields
                [("owner_id", VStr "p1"); ("direction", VInt 3);
                 ("turret", VDict [("direction", VInt 1)]); ("health", VInt 80)]
                _ eq_refl)) as H.
  split; apply H; first [discriminate|reflexivity].
Defined.

(** ** Zones *)

Lemma forallb_keys_set (P : string -> bool) (k : string) (v : value) (d : dict) :
  forallb P (dict_keys (dict_set k v d)) = forallb P (dict_keys d) && P k.
Proof.
  unfold dict_keys. induction d as [|[k0 v0] d IH]; simpl.
  - now rewrite andb_true_r.
  - destruct (String.eqb k k0) eqn:E; simpl.
    + apply String.eqb_eq in E. subst k0.
      destruct (P k); simpl; auto. now rewrite andb_true_r.
    + rewrite IH. now rewrite andb_assoc.
Qed.

Lemma forallb_keys_remove (P : string -> bool) (k : string) (d : dict) :
  P k = true ->
  forallb P (dict_keys (dict_remove k d)) = forallb P (dict_keys d).
Proof.
  intros HP. unfold dict_keys, dict_remove.
  induction d as [|[k0 v0] d IH]; simpl; auto.
  destruct (String.eqb k k0) eqn:E; simpl.
  - apply String.eqb_eq in E. subst k0. now rewrite HP.
  - now rewrite IH.
Qed.

Lemma zone_kwargs_geometry (d s : dict) (t : value) (k : string) :
  In k ["x"; "y"; "width"; "height"; "index"] ->
  dict_get k (zone_kwargs d s t) = dict_get k d.
Proof.
  unfold zone_kwargs. simpl.
  intros [<-|[<-|[<-|[<-|[<-|[]]]]]];
    rewrite !dict_get_set_neq by discriminate;
    now rewrite dict_get_remove_neq by discriminate.
Qed.

Lemma zone_kwargs_status (d s : dict) (t : value) :
  dict_get "status" (zone_kwargs d s t) = Some t.
Proof.
  unfold zone_kwargs. rewrite !dict_get_set_neq by discriminate.
  apply dict_get_set_eq.
Qed.

(** X8: a zone whose status is a mapping with a [type] entry decodes
    exactly when every key of the zone object names a field of RawZone and
    x, y, width, height and index are present; the zone object may carry
    the four status-specific keys itself, their values are overwritten. *)
Theorem zone_decoding_succeeds_iff :
  forall (d s : dict) (t : value),
    dict_get "status" d = Some (VDict s) ->
    dict_get "type" s = Some t ->
    is_ok (RawZone_from_json (VDict d)) =
    forallb (known_keyword RawZone) (dict_keys d)
    && forallb (fun k => dict_mem k d) ["x"; "y"; "width"; "height"; "index"].
Proof.
  intros d s t Hs Ht.
  rewrite (RawZone_from_json_status d s Hs), Ht, dataclass_init_ok.
  f_equal.
  - unfold zone_kwargs. rewrite !forallb_keys_set.
    rewrite forallb_keys_remove by reflexivity.
    change (known_keyword RawZone "remaining_ticks") with true.
    change (known_keyword RawZone "retaken_by_id") with true.
    change (known_keyword RawZone "captured_by_id") with true.
    change (known_keyword RawZone "player_id") with true.
    change (known_keyword RawZone "status") with true.
    now rewrite !andb_true_r.
  - cbn [fields_of forallb]. unfold field_value, dict_mem.
    cbn [fname fdefault required optional].
    rewrite !zone_kwargs_geometry by (simpl; auto 10).
    rewrite zone_kwargs_status.
    repeat match goal with
           | |- context [dict_get ?k (zone_kwargs d s t)] =>
               destruct (dict_get k (zone_kwargs d s t))
           end;
      destruct (dict_get "x" d), (dict_get "y" d), (dict_get "width" d),
        (dict_get "height" d), (dict_get "index" d); reflexivity.
Qed.

Lemma zone_decoding_succeeds_iff_witness :
  is_ok (RawZone_from_json
           (VDict [("player_id", VStr "stale"); ("x", VInt 0); ("y", VInt 0);
                   ("width", VInt 4); ("height", VInt 4); ("index", VInt 65);
                   ("status", VDict [("type", VStr "neutral")])])) = true.
Proof.
  rewrite (zone_decoding_succeeds_iff
             [("player_id", VStr "stale"); ("x", VInt 0); ("y", VInt 0);
              ("width", VInt 4); ("height", VInt 4); ("index", VInt 65);
              ("status", VDict [("type", VStr "neutral")])]
             [("type", VStr "neutral")] (VStr "neutral") eq_refl eq_refl).
  reflexivity.
Defined.

(** X9: a zone object without [status] fails with a KeyError for [type],
    the key looked up in the empty mapping that stands for the status; so
    does a status mapping without [type]; a status that is not a mapping
    fails with a TypeError. *)
Theorem zone_status_errors :
  forall d : dict,
    (dict_get "status" d = None ->
     RawZone_from_json (VDict d) = Raise (KeyError "type"))
    /\ (forall s, dict_get "status" d = Some (VDict s) ->
                  dict_get "type" s = None ->
                  RawZone_from_json (VDict d) = Raise (KeyError "type"))
    /\ (forall x, dict_get "status" d = Some x ->
                  (forall s, x <> VDict s) ->
                  RawZone_from_json (VDict d) = Raise TypeError).
Proof.
  intros d. split; [|split].
  - intros H. unfold RawZone_from_json, pop_default. now rewrite H.
  - intros s Hs Ht. rewrite (RawZone_from_json_status d s Hs). now rewrite Ht.
  - intros x Hx Hn. unfold RawZone_from_json, pop_default. rewrite Hx.
    cbn [bind]. destruct x; try reflexivity. now destruct (Hn entries).
Qed.

Lemma zone_status_errors_witness :
  RawZone_from_json
    (VDict [("x", VInt 0); ("y", VInt 0); ("width", VInt 4); ("height", VInt 4);
            ("index", VInt 65)]) = Raise (KeyError "type")
  /\ RawZone_from_json (zone_data (VStr "neutral")) = Raise TypeError.
Proof.
  split.
  - apply (zone_status_errors
             [("x", VInt 0); ("y", VInt 0); ("width", VInt 4); ("height", VInt 4);
              ("index", VInt 65)]). reflexivity.
  - apply (proj2 (proj2 (zone_status_errors
             [("x", VInt 0); ("y", VInt 0); ("width", VInt 1); ("height", VInt 1);
              ("index", VInt 0); ("status", VStr "neutral")])) (VStr "neutral")).
    + reflexivity.
    + discriminate.
Defined.

(** ** Sequences, maps and messages *)

Lemma mapM_decoded_by (f : value -> result value) (xs ys : list value) :
  mapM f xs = Ok ys <-> decoded_by f xs ys.
Proof.
  unfold decoded_by. revert ys. induction xs as [|x xs IH]; intros ys; simpl.
  - split.
    + intros H. injection H as <-. constructor.
    + intros H. inversion H. reflexivity.
  - split.
    + destruct (f x) as [y|] eqn:Hy; simpl; [|discriminate].
      destruct (mapM f xs) as [ys'|] eqn:Hm; simpl; [|discriminate].
      intros H. injection H as <-. constructor; auto. now apply IH.
    + intros H. inversion H as [|x' y xs' ys' Hy Hrest]; subst.
      rewrite Hy. simpl. apply IH in Hrest. rewrite Hrest. reflexivity.
Qed.

Lemma mapM_fails (f : value -> result value) (xs : list value) (x : value) :
  In x xs -> is_ok (f x) = false -> is_ok (mapM f xs) = false.
Proof.
  intros Hin Hx. induction xs as [|x0 xs IH]; simpl; [contradiction|].
  destruct Hin as [->|Hin].
  - destruct (f x); [discriminate|reflexivity].
  - destruct (f x0); simpl; auto.
    specialize (IH Hin). destruct (mapM f xs); [discriminate|reflexivity].
Qed.

Lemma tuple_of_list (f : value -> result value) (xs : list value) (r : value) :
  tuple_of f (VList xs) = Ok r <-> exists ys, r = VTuple ys /\ decoded_by f xs ys.
Proof.
  unfold tuple_of. cbn [iter bind]. split.
  - destruct (mapM f xs) as [ys|] eqn:Hm; simpl; [|discriminate].
    intros H. injection H as <-. exists ys. split; auto. now apply mapM_decoded_by.
  - intros (ys & -> & H). apply mapM_decoded_by in H. now rewrite H.
Qed.

Lemma tuple_of_fails (f : value -> result value) (xs : list value) (x : value) :
  In x xs -> is_ok (f x) = false -> is_ok (tuple_of f (VList xs)) = false.
Proof.
  intros Hin Hx. unfold tuple_of. cbn [iter bind].
  pose proof (mapM_fails f xs x Hin Hx) as H.
  destruct (mapM f xs); [discriminate|reflexivity].
Qed.

Lemma is_ok_bind_fails {A B : Type} (c : result A) (k : A -> result B) :
  is_ok c = false -> is_ok (bind c k) = false.
Proof. destruct c; simpl; auto; discriminate. Qed.

Lemma is_ok_bind_then_fails {A B : Type} (c : result A) (k : A -> result B) :
  (forall a, is_ok (k a) = false) -> is_ok (bind c k) = false.
Proof. destruct c; simpl; auto. Qed.

(** X10: the decoded map keeps the shape of the wire arrays: the tiles are
    a tuple with one entry per row, each the decoded row, in order; the
    zones a tuple with one decoded zone per zone object, in order; the
    visibility the tuple of the visibility items, unchanged. *)
Theorem decoded_map_shape :
  forall (d : dict) (r : value) (rows zones_data visibility : list value),
    RawMap_from_json (VDict d) = Ok r ->
    dict_get "tiles" d = Some (VList rows) ->
    dict_get "zones" d = Some (VList zones_data) ->
    dict_get "visibility" d = Some (VList visibility) ->
    (exists tiles,
        getattr r "tiles" = Ok (VTuple tiles)
        /\ length tiles = length rows
        /\ decoded_by (tuple_of (tuple_of RawTileObject_from_json)) rows tiles)
    /\ (exists zones,
           getattr r "zones" = Ok (VTuple zones)
           /\ length zones = length zones_data
           /\ decoded_by RawZone_from_json zones_data zones)
    /\ getattr r "visibility" = Ok (VTuple visibility).
Proof.
  intros d r rows zs vis H Ht Hz Hv.
  unfold RawMap_from_json, getitem in H. rewrite Ht in H. cbn [bind] in H.
  destruct (tuple_of _ (VList rows)) as [tiles|] eqn:Htiles; [|discriminate].
  cbn [bind setitem] in H.
  rewrite dict_get_set_neq, Hz in H by discriminate. cbn [bind] in H.
  destruct (tuple_of RawZone_from_json (VList zs)) as [zones|] eqn:Hzones;
    [|discriminate].
  cbn [bind setitem] in H.
  rewrite !dict_get_set_neq, Hv in H by discriminate.
  cbn [bind tuple_of iter] in H.
  assert (Hid : mapM Ok vis = Ok vis).
  { clear. induction vis as [|x l IH]; simpl; auto. now rewrite IH. }
  rewrite Hid in H. cbn [bind setitem] in H. rewrite construct_dict in H.
  apply tuple_of_list in Htiles as (tl & -> & Htl).
  apply tuple_of_list in Hzones as (zl & -> & Hzl).
  split; [|split].
  - exists tl. split; [|split; [symmetry; eapply Forall2_length; eauto|exact Htl]].
    eapply dataclass_init_keeps; eauto.
    rewrite !dict_get_set_neq by discriminate. apply dict_get_set_eq.
  - exists zl. split; [|split; [symmetry; eapply Forall2_length; eauto|exact Hzl]].
    eapply dataclass_init_keeps; eauto.
    rewrite dict_get_set_neq by discriminate. apply dict_get_set_eq.
  - eapply dataclass_init_keeps; eauto. apply dict_get_set_eq.
Qed.

(** X11: no partial game state: when one occupant of one tile of the map
    fails to decode, or one zone does, the decoding of the whole game state
    fails. *)
Theorem one_bad_part_fails_the_game_state :
  forall (d m : dict) (rows zones_data : list value),
    dict_get "map" d = Some (VDict m) ->
    dict_get "tiles" m = Some (VList rows) ->
    dict_get "zones" m = Some (VList zones_data) ->
    ((exists row tile obj,
         In (VList row) rows /\ In (VList tile) row /\ In obj tile
         /\ is_ok (RawTileObject_from_json obj) = false)
     \/ (exists zone, In zone zones_data /\ is_ok (RawZone_from_json zone) = false)) ->
    is_ok (GameStatePayload_from_json (VDict d)) = false.
Proof.
  intros d m rows zs Hm Ht Hz Hbad.
  assert (Hmap : is_ok (RawMap_from_json (VDict m)) = false).
  { unfold RawMap_from_json, getitem. rewrite Ht. cbn [bind].
    destruct Hbad as [(row & tile & obj & Hrow & Htile & Hobj & Hfail)|(z & Hin & Hfail)].
    - apply is_ok_bind_fails.
      apply (tuple_of_fails _ rows (VList row) Hrow).
      apply (tuple_of_fails _ row (VList tile) Htile).
      apply (tuple_of_fails _ tile obj Hobj Hfail).
    - apply is_ok_bind_then_fails. intros tiles. cbn [bind setitem].
      rewrite dict_get_set_neq, Hz by discriminate. cbn [bind].
      apply is_ok_bind_fails. apply (tuple_of_fails _ zs z Hin Hfail). }
  unfold GameStatePayload_from_json, getitem.
  destruct (dict_get "players" d); [|reflexivity].
  cbn [bind]. apply is_ok_bind_then_fails. intros players. cbn [bind setitem].
  rewrite dict_get_set_neq, Hm by discriminate. cbn [bind].
  now apply is_ok_bind_fails.
Qed.

Lemma required_field_present (c : pyclass) (d : dict) (r : value) (k : string) :
  dataclass_init c d = Ok r ->
  find_field k (fields_of c) = Some (required k) ->
  exists v, dict_get k d = Some v /\ getattr r k = Ok v.
Proof.
  intros Hr Hf.
  destruct (dataclass_init_getattr _ _ _ _ _ Hr Hf) as (v & Hv & Hg).
  unfold field_value in Hv. cbn [fname fdefault required] in Hv.
  destruct (dict_get k d) as [v'|]; [|discriminate].
  injection Hv as ->. eauto.
Qed.

(** X12: a decoded game state holds the players and the map as their
    decoders return them, and the [id] and the [tick] of the message,
    which must be present, unchanged. *)
Theorem decoded_game_state_fields :
  forall (d : dict) (r : value),
    GameStatePayload_from_json (VDict d) = Ok r ->
    (exists players_data map_data players map,
        dict_get "players" d = Some players_data
        /\ dict_get "map" d = Some map_data
        /\ tuple_of RawPlayer_from_json players_data = Ok players
        /\ RawMap_from_json map_data = Ok map
        /\ getattr r "players" = Ok players
        /\ getattr r "map" = Ok map)
    /\ (exists id tick,
           dict_get "id" d = Some id /\ dict_get "tick" d = Some tick
           /\ getattr r "id" = Ok id /\ getattr r "tick" = Ok tick).
Proof.
  intros d r H. unfold GameStatePayload_from_json, getitem in H.
  destruct (dict_get "players" d) as [ps|] eqn:Hps; [|discriminate].
  cbn [bind] in H.
  destruct (tuple_of RawPlayer_from_json ps) as [players|] eqn:Hplayers;
    [|discriminate].
  cbn [bind setitem] in H. rewrite dict_get_set_neq in H by discriminate.
  destruct (dict_get "map" d) as [m|] eqn:Hm; [|discriminate].
  cbn [bind] in H.
  destruct (RawMap_from_json m) as [map|] eqn:Hmap; [|discriminate].
  cbn [bind setitem] in H. rewrite construct_dict in H.
  split.
  - exists ps, m, players, map. repeat (split; [solve [reflexivity | assumption]|]). split.
    + eapply dataclass_init_keeps; eauto.
      rewrite dict_get_set_neq by discriminate. apply dict_get_set_eq.
    + eapply dataclass_init_keeps; eauto. apply dict_get_set_eq.
  - destruct (required_field_present _ _ _ "id" H eq_refl) as (id & Hid & Gid).
    destruct (required_field_present _ _ _ "tick" H eq_refl) as (tick & Htick & Gtick).
    rewrite !dict_get_set_neq in Hid, Htick by discriminate.
    exists id, tick. auto.
Qed.

Lemma server_settings_all_required (k : string) (f : field) :
  find_field k (fields_of ServerSettings) = Some f -> f = required k.
Proof.
  unfold find_field. cbn [fields_of find fname required].
  repeat match goal with
         | |- context [String.eqb k ?s] =>
             let E := fresh "E" in
             destruct (String.eqb k s) eqn:E;
             [apply String.eqb_eq in E; subst k; intros H; injection H as <-;
              reflexivity|]
         end.
  discriminate.
Qed.

(** X13: a decoded lobby holds the decoded players, the ServerSettings
    record built from the [server_settings] mapping, which must carry each
    of the six settings and keeps them unchanged, and the [player_id] of
    the message. *)
Theorem decoded_lobby_fields :
  forall (d : dict) (r : value),
    LobbyDataPayload_from_json (VDict d) = Ok r ->
    (exists players_data players,
        dict_get "players" d = Some players_data
        /\ tuple_of RawPlayer_from_json players_data = Ok players
        /\ getattr r "players" = Ok players)
    /\ (exists settings_data settings,
           dict_get "server_settings" d = Some (VDict settings_data)
           /\ getattr r "server_settings" = Ok settings
           /\ forall k, known_keyword ServerSettings k = true ->
                        exists v, dict_get k settings_data = Some v
                                  /\ getattr settings k = Ok v)
    /\ (exists player_id,
           dict_get "player_id" d = Some player_id
           /\ getattr r "player_id" = Ok player_id).
Proof.
  intros d r H. unfold LobbyDataPayload_from_json, getitem in H.
  destruct (dict_get "players" d) as [ps|] eqn:Hps; [|discriminate].
  cbn [bind] in H.
  destruct (tuple_of RawPlayer_from_json ps) as [players|] eqn:Hplayers;
    [|discriminate].
  cbn [bind setitem] in H. rewrite dict_get_set_neq in H by discriminate.
  destruct (dict_get "server_settings" d) as [sd|] eqn:Hsd; [|discriminate].
  cbn [bind] in H.
  destruct (construct ServerSettings sd) as [settings|] eqn:Hset; [|discriminate].
  cbn [bind setitem] in H. rewrite construct_dict in H.
  split; [|split].
  - exists ps, players. repeat (split; [solve [reflexivity | assumption]|]).
    eapply dataclass_init_keeps; eauto.
    rewrite dict_get_set_neq by discriminate. apply dict_get_set_eq.
  - destruct sd as [| | | | | | |sdict|]; try discriminate Hset.
    exists sdict, settings. split; [reflexivity|]. split.
    + eapply dataclass_init_keeps; eauto. apply dict_get_set_eq.
    + intros k Hk. rewrite construct_dict in Hset.
      destruct (known_keyword_find _ _ Hk) as (f & Hf & _).
      pose proof (server_settings_all_required _ _ Hf) as ->.
      eapply required_field_present; eauto.
  - destruct (required_field_present _ _ _ "player_id" H eq_refl) as (pid & Hpid & G).
    rewrite !dict_get_set_neq in Hpid by discriminate. eauto.
Qed.

Lemma decoded_lobby_fields_witness :
  exists r,
    LobbyDataPayload_from_json
      (VDict [("player_id", VStr "p1");
              ("players", VList [VDict (player_data "p1")]);
              ("server_settings",
               VDict [("grid_dimension", VInt 24); ("number_of_players", VInt 4);
                      ("seed", VInt 42); ("ticks", VInt 3000);
                      ("broadcast_interval", VInt 100);
                      ("eager_broadcast", VBool true)])]) = Ok r
    /\ getattr r "player_id" = Ok (VStr "p1").
Proof.
  eexists. split; [reflexivity|].
  destruct (proj2 (proj2 (decoded_lobby_fields
              [("player_id", VStr "p1");
               ("players", VList [VDict (player_data "p1")]);
               ("server_settings",
                VDict [("grid_dimension", VInt 24); ("number_of_players", VInt 4);
                       ("seed", VInt 42); ("ticks", VInt 3000);
                       ("broadcast_interval", VInt 100);
                       ("eager_broadcast", VBool true)])]
              _ eq_refl))) as (pid & Hpid & G).
  injection Hpid as <-. exact G.
Defined.

(** X14: the end-of-game message decodes exactly when it has a [players]
    entry whose players all decode, and no other key. *)
Theorem game_end_decoding_succeeds_iff :
  forall d : dict,
    is_ok (GameEndPayload_from_json (VDict d)) =
    match dict_get "players" d with
    | Some players_data =>
        is_ok (tuple_of (construct RawPlayer) players_data)
        && forallb (String.eqb "players") (dict_keys d)
    | None => false
    end.
Proof.
  intros d. unfold GameEndPayload_from_json, getitem.
  destruct (dict_get "players" d) as [ps|]; [|reflexivity].
  cbn [bind].
  destruct (tuple_of (construct RawPlayer) ps) as [players|]; [|reflexivity].
  cbn [bind setitem is_ok andb]. rewrite construct_dict, dataclass_init_ok.
  cbn [is_abstract negb andb fields_of forallb].
  unfold field_value. cbn [fname required]. rewrite dict_get_set_eq.
  rewrite forallb_keys_set.
  change (known_keyword GameEndPayload "players") with true.
  rewrite !andb_true_r.
  induction (dict_keys d) as [|k ks IH]; simpl; auto.
  rewrite IH. f_equal. unfold known_keyword. simpl.
  rewrite orb_false_r. apply String.eqb_sym.
Qed.

(** ** Keys outside the field set, for the composite decoders *)

Lemma in_keys_set (k k' : string) (v : value) (d : dict) :
  In k (dict_keys d) -> In k (dict_keys (dict_set k' v d)).
Proof.
  unfold dict_keys. induction d as [|[k0 v0] d IH]; simpl; [contradiction|].
  destruct (String.eqb k' k0); simpl; intros [H|H]; auto.
Qed.

Lemma in_keys_remove (k k' : string) (d : dict) :
  In k (dict_keys d) -> k <> k' -> In k (dict_keys (dict_remove k' d)).
Proof.
  unfold dict_keys, dict_remove. intros Hin Hne.
  induction d as [|[k0 v0] d IH]; simpl in *; [contradiction|].
  destruct (String.eqb k' k0) eqn:E; simpl.
  - apply String.eqb_eq in E. subst k0. destruct Hin as [H|H]; [congruence|auto].
  - destruct Hin as [H|H]; auto.
Qed.

Lemma construct_unknown_key (c : pyclass) (d : dict) (k : string) :
  In k (dict_keys d) -> known_keyword c k = false ->
  is_ok (construct c (VDict d)) = false.
Proof.
  intros Hin Hk. rewrite construct_dict.
  now rewrite (unknown_keyword_rejected c d k Hin Hk).
Qed.

Ltac fails_through :=
  repeat first
    [ eapply construct_unknown_key;
        [repeat apply in_keys_set; eassumption|assumption]
    | match goal with
      | |- is_ok (bind (getitem (VDict ?d) ?k) _) = false =>
          unfold getitem at 1;
          rewrite ?dict_get_set_neq by discriminate;
          destruct (dict_get k d); [cbn [bind]|reflexivity]
      | |- is_ok (bind (setitem (VDict _) _ _) _) = false => cbn [bind setitem]
      | |- is_ok (bind _ _) = false =>
          apply is_ok_bind_then_fails; intro
      end ].

(** X15: the decoders that decode parts of their argument first are as
    strict as the plain ones: a key of the input mapping that names no
    field of the record makes the decoding fail. *)
Theorem composite_decoders_reject_unknown_keys :
  forall (c : pyclass) (f : value -> result value) (d : dict) (k : string),
    In (c, f) composite_decoders ->
    In k (dict_keys d) ->
    known_keyword c k = false ->
    is_ok (f (VDict d)) = false.
Proof.
  intros c f d k Hdec Hin Hk. unfold composite_decoders in Hdec. simpl in Hdec.
  destruct Hdec as [H|[H|[H|[H|[H|[H|[]]]]]]]; injection H as <- <-.
  - unfold RawTank_from_json. fails_through.
  - assert (Hne : k <> "status").
    { intros ->. discriminate Hk. }
    unfold RawZone_from_json, pop_default.
    destruct (dict_get "status" d) as [status|]; cbn [bind].
    + apply is_ok_bind_then_fails. intros t. cbn [bind setitem].
      do 4 (apply is_ok_bind_then_fails; intro; cbn [bind setitem]).
      apply (construct_unknown_key _ _ k); [|assumption].
      repeat apply in_keys_set. now apply in_keys_remove.
    + reflexivity.
  - unfold RawMap_from_json. fails_through.
  - unfold LobbyDataPayload_from_json. fails_through.
  - unfold GameStatePayload_from_json. fails_through.
  - unfold GameEndPayload_from_json. fails_through.
Qed.

(** ** The exceptions of the decoders *)



















(** ** The runtime protocols *)

Lemma isinstance_keys (o : object) (p : protocol) :
  isinstance o p =
  forallb (fun name => existsb (String.eqb name) (dict_keys o)) (protocol_attrs p).
Proof.
  unfold isinstance, hasattr.
  induction (protocol_attrs p) as [|a l IH]; simpl; auto.
  now rewrite IH, dict_mem_keys.
Qed.

Lemma bare_instance_passes (p : protocol) :
  isinstance (bare_instance p) p = true.
Proof. destruct p; reflexivity. Qed.

(** X17: among the runtime protocols the only instance check that implies
    another is the one of AgentTank, which implies that of PlayerTank: for
    every other pair of distinct protocols some object passes the first
    check and fails the second. *)
Theorem protocol_checks_are_independent :
  forall p q : protocol,
    (forall o : object, isinstance o p = true -> isinstance o q = true)
    <-> (p = q \/ (p = AgentTank /\ q = PlayerTank)).
Proof.
  intros p q. split.
  - intros H. specialize (H (bare_instance p) (bare_instance_passes p)).
    destruct p, q;
      first [ left; reflexivity
            | right; split; reflexivity
            | discriminate H ].
  - intros [->|[-> ->]]; auto.
    intros o H. unfold isinstance in *. simpl in *.
    repeat (apply andb_prop in H as [? H]).
    repeat (apply andb_true_intro; split); auto.
Qed.

Lemma protocol_checks_are_independent_witness :
  ~ (forall o : object, isinstance o BeingRetakenZone = true ->
                        isinstance o BeingContestedZone = true).
Proof.
  intros H.
  apply (proj1 (protocol_checks_are_independent BeingRetakenZone BeingContestedZone))
    in H.
  destruct H as [H|[H _]]; discriminate H.
Defined.

(** X18: a record of the payload module passes the instance check of no
    runtime protocol: its data attributes are its declared fields, and no
    field is the marker every protocol asks for. *)
Theorem raw_records_pass_no_protocol :
  forall (c : pyclass) (slots : dict) (p : protocol),
    dict_keys slots = field_names c ->
    isinstance slots p = false.
Proof.
  intros c slots p Hk. rewrite isinstance_keys, Hk.
  destruct c, p; reflexivity.
Qed.

Lemma raw_records_pass_no_protocol_witness :
  isinstance [("owner_id", VStr "p1"); ("direction", VInt 0);
              ("turret", VNone); ("health", VInt 100)] AgentTank = false.
Proof.
  apply (raw_records_pass_no_protocol RawTank
           [("owner_id", VStr "p1"); ("direction", VInt 0);
            ("turret", VNone); ("health", VInt 100)] AgentTank).
  reflexivity.
Defined.

(** ** The first failure *)



(** ** C2: tank owners and the player list *)

Lemma mapM_nth (f : value -> result value) (xs ys : list value) (n : nat) (x : value) :
  mapM f xs = Ok ys ->
  nth_error xs n = Some x ->
  exists y, nth_error ys n = Some y /\ f x = Ok y.
Proof.
  revert ys n. induction xs as [|x0 xs IH]; intros ys n; simpl.
  - destruct n; discriminate.
  - destruct (f x0) as [y0|] eqn:Hy; simpl; [|discriminate].
    destruct (mapM f xs) as [ys'|] eqn:Hm; simpl; [|discriminate].
    intros H. injection H as <-. destruct n as [|n]; simpl.
    + intros Hx. injection Hx as <-. eauto.
    + intros Hx. eapply IH; eauto.
Qed.

Lemma tuple_of_nth (f : value -> result value) (o t : value) (n : nat) (x : value) :
  tuple_of f o = Ok t ->
  nth_item o n = Some x ->
  exists y, nth_item t n = Some y /\ f x = Ok y.
Proof.
  unfold tuple_of. intros H Hx.
  destruct o; simpl in Hx; try discriminate; cbn [iter bind] in H;
    (destruct (mapM f items) as [ys|] eqn:Hm; simpl in H; [|discriminate];
     injection H as <-; simpl; eapply mapM_nth; eauto).
Qed.

Lemma RawMap_from_json_tiles (m : dict) (map tiles_data : value) :
  RawMap_from_json (VDict m) = Ok map ->
  dict_get "tiles" m = Some tiles_data ->
  exists tiles,
    tuple_of (tuple_of (tuple_of RawTileObject_from_json)) tiles_data = Ok tiles
    /\ getattr map "tiles" = Ok tiles.
Proof.
  intros H Ht. unfold RawMap_from_json, getitem in H. rewrite Ht in H.
  cbn [bind] in H.
  destruct (tuple_of _ tiles_data) as [tiles|] eqn:Htiles; [|discriminate].
  cbn [bind setitem] in H. peel H.
  exists tiles. split; [reflexivity|].
  repeat match goal with
         | E : setitem (VDict _) _ _ = Ok _ |- _ =>
             simpl in E; injection E as <-
         | E : getitem (VDict _) _ = Ok _ |- _ => clear E
         end.
  rewrite construct_dict in H. eapply dataclass_init_keeps; eauto.
  rewrite !dict_get_set_neq by discriminate. apply dict_get_set_eq.
Qed.

Lemma GameStatePayload_from_json_map (d : dict) (r map_data : value) :
  GameStatePayload_from_json (VDict d) = Ok r ->
  dict_get "map" d = Some map_data ->
  exists map, RawMap_from_json map_data = Ok map /\ getattr r "map" = Ok map.
Proof.
  intros H Hm. unfold GameStatePayload_from_json, getitem in H.
  destruct (dict_get "players" d) as [ps|]; [|discriminate].
  cbn [bind] in H.
  destruct (tuple_of RawPlayer_from_json ps) as [players|]; [|discriminate].
  cbn [bind setitem] in H. rewrite dict_get_set_neq, Hm in H by discriminate.
  cbn [bind] in H.
  destruct (RawMap_from_json map_data) as [map|]; [|discriminate].
  cbn [bind setitem] in H. rewrite construct_dict in H.
  exists map. split; [reflexivity|].
  eapply dataclass_init_keeps; eauto. apply dict_get_set_eq.
Qed.

Lemma tank_occupant_owner (obj p : dict) (tag : string) (owner o : value) :
  RawTileObject_from_json (VDict obj) = Ok o ->
  dict_get "type" obj = Some (VStr tag) ->
  pascalize tag = "Tank" ->
  dict_get "payload" obj = Some (VDict p) ->
  dict_get "owner_id" p = Some owner ->
  exists tank, getattr o "entity" = Ok tank /\ getattr tank "owner_id" = Ok owner.
Proof.
  intros H Ht Hp Hpay Hown.
  assert (Hg : globals_get (raw_class_name (VStr tag)) = Some (GClass RawTank)).
  { cbn [raw_class_name]. rewrite Hp. reflexivity. }
  rewrite (RawTileObject_from_json_entity obj tag RawTank Ht Hg eq_refl) in H.
  unfold payload_of in H. rewrite Hpay in H. cbn [tile_entity_from_json] in H.
  destruct (RawTank_from_json (VDict p)) as [tank|] eqn:Htank; [|discriminate].
  cbn [bind] in H. injection H as <-.
  exists tank. split; [reflexivity|].
  unfold RawTank_from_json, getitem in Htank.
  destruct (dict_get "turret" p) as [t|]; [|discriminate].
  cbn [bind] in Htank.
  destruct (RawTurret_from_json t) as [turret|]; [|discriminate].
  cbn [bind setitem] in Htank. rewrite construct_dict in Htank.
  eapply dataclass_init_keeps; eauto.
  rewrite dict_get_set_neq by discriminate. exact Hown.
Qed.

Lemma GameStatePayload_from_json_ok (d : dict) :
  is_ok (GameStatePayload_from_json (VDict d)) =
  match dict_get "players" d, dict_get "map" d with
  | Some players_data, Some map_data =>
      is_ok (tuple_of RawPlayer_from_json players_data)
      && is_ok (RawMap_from_json map_data)
      && forallb (known_keyword GameStatePayload) (dict_keys d)
      && dict_mem "id" d && dict_mem "tick" d
  | _, _ => false
  end.
Proof.
  unfold GameStatePayload_from_json, getitem.
  destruct (dict_get "players" d) as [ps|]; [|reflexivity].
  cbn [bind].
  destruct (tuple_of RawPlayer_from_json ps) as [players|];
    [|destruct (dict_get "map" d); reflexivity].
  cbn [bind setitem]. rewrite dict_get_set_neq by discriminate.
  destruct (dict_get "map" d) as [m|]; [|reflexivity].
  cbn [bind].
  destruct (RawMap_from_json m) as [map|]; [|reflexivity].
  cbn [bind setitem is_ok andb]. rewrite construct_dict, dataclass_init_ok.
  cbn [is_abstract negb andb fields_of forallb].
  unfold field_value, dict_mem. cbn [fname fdefault required].
  rewrite !forallb_keys_set.
  change (known_keyword GameStatePayload "players") with true.
  change (known_keyword GameStatePayload "map") with true.
  rewrite dict_get_set_eq.
  rewrite (dict_get_set_neq "map" "players") by discriminate.
  rewrite dict_get_set_eq.
  rewrite !(dict_get_set_neq "map") by discriminate.
  rewrite !(dict_get_set_neq "players") by discriminate.
  rewrite !andb_true_r.
  destruct (forallb _ _), (dict_get "id" d), (dict_get "tick" d); reflexivity.
Qed.

(** C2, as the code has it: the decoding of a game state never compares
    the owner of a tank with the player list.  Giving every occupant of the
    map another [owner_id] changes neither whether the decoding succeeds
    nor the exception it raises.  When a game state decodes, the record of
    every tank of its map holds the [owner_id] of the wire object as it
    came, whatever the players are.  And the decoding succeeds exactly when
    the players decode, the map decodes, every key of the message names a
    field and [id] and [tick] are present: no condition links the two. *)
Theorem owners_are_not_checked :
  (forall json_data owner : value,
      outcome (GameStatePayload_from_json (reown_state owner json_data)) =
      outcome (GameStatePayload_from_json json_data))
  /\ (forall (d m obj p : dict) (tiles_data owner r : value) (tag : string)
             (i j k : nat),
         GameStatePayload_from_json (VDict d) = Ok r ->
         dict_get "map" d = Some (VDict m) ->
         dict_get "tiles" m = Some tiles_data ->
         tile_occupant tiles_data i j k = Some (VDict obj) ->
         dict_get "type" obj = Some (VStr tag) ->
         pascalize tag = "Tank" ->
         dict_get "payload" obj = Some (VDict p) ->
         dict_get "owner_id" p = Some owner ->
         exists map tiles occupant tank,
           getattr r "map" = Ok map
           /\ getattr map "tiles" = Ok tiles
           /\ tile_occupant tiles i j k = Some occupant
           /\ getattr occupant "entity" = Ok tank
           /\ getattr tank "owner_id" = Ok owner)
  /\ (forall d : dict,
         is_ok (GameStatePayload_from_json (VDict d)) =
         match dict_get "players" d, dict_get "map" d with
         | Some players_data, Some map_data =>
             is_ok (tuple_of RawPlayer_from_json players_data)
             && is_ok (RawMap_from_json map_data)
             && forallb (known_keyword GameStatePayload) (dict_keys d)
             && dict_mem "id" d && dict_mem "tick" d
         | _, _ => false
         end).
Proof.
  split; [|split].
  - intros json_data owner. apply GameStatePayload_from_json_reown.
  - intros d m obj p tiles_data owner r tag i j k Hr Hm Ht Hocc Htag Hp Hpay Hown.
    destruct (GameStatePayload_from_json_map d r _ Hr Hm) as (map & Hmap & Gmap).
    destruct (RawMap_from_json_tiles m map _ Hmap Ht) as (tiles & Htiles & Gtiles).
    unfold tile_occupant in Hocc.
    destruct (nth_item tiles_data i) as [row|] eqn:Hrow; [|discriminate].
    destruct (nth_item row j) as [tile|] eqn:Htile; [|discriminate].
    destruct (tuple_of_nth _ _ _ _ _ Htiles Hrow) as (row' & Hrow' & Drow).
    destruct (tuple_of_nth _ _ _ _ _ Drow Htile) as (tile' & Htile' & Dtile).
    destruct (tuple_of_nth _ _ _ _ _ Dtile Hocc) as (o & Ho & Dobj).
    destruct (tank_occupant_owner obj p tag owner o Dobj Htag Hp Hpay Hown)
      as (tank & Gent & Gown).
    exists map, tiles, o, tank.
    split; [exact Gmap|]. split; [exact Gtiles|]. split.
    + unfold tile_occupant. now rewrite Hrow', Htile'.
    + split; assumption.
  - apply GameStatePayload_from_json_ok.
Qed.

End Decoding.

(** * Closed examples

    The statements above hold for every conversion of the texts that are
    not ASCII.  The examples below have ASCII texts only and fix one. *)

Lemma owners_are_not_checked_witness :
  exists r map tiles occupant tank,
    GameStatePayload_from_json unconverted
      (game_state_data [VDict (player_data "p1")] (tank_data (VStr "p2"))) = Ok r
    /\ getattr r "map" = Ok map
    /\ getattr map "tiles" = Ok tiles
    /\ tile_occupant tiles 0 0 0 = Some occupant
    /\ getattr occupant "entity" = Ok tank
    /\ getattr tank "owner_id" = Ok (VStr "p2").
Proof.
  destruct (GameStatePayload_from_json unconverted
              (game_state_data [VDict (player_data "p1")] (tank_data (VStr "p2"))))
    as [r|e] eqn:Hr; [|vm_compute in Hr; discriminate Hr].
  destruct (proj1 (proj2 (owners_are_not_checked unconverted))
              [("id", VStr "state-1"); ("tick", VInt 7);
               ("players", VList [VDict (player_data "p1")]);
               ("map", VDict [("tiles", VList [VList [VList [tank_data (VStr "p2")]]]);
                              ("zones", VList []);
                              ("visibility", VList [VStr "1"])])]
              [("tiles", VList [VList [VList [tank_data (VStr "p2")]]]);
               ("zones", VList []);
               ("visibility", VList [VStr "1"])]
              [("type", VStr "tank");
               ("payload", VDict [("owner_id", VStr "p2"); ("direction", VInt 0);
                                  ("turret", VDict [("direction", VInt 1)])])]
              [("owner_id", VStr "p2"); ("direction", VInt 0);
               ("turret", VDict [("direction", VInt 1)])]
              (VList [VList [VList [tank_data (VStr "p2")]]])
              (VStr "p2") r "tank" 0%nat 0%nat 0%nat
              Hr eq_refl eq_refl eq_refl eq_refl eq_refl eq_refl eq_refl)
    as (map & tiles & occupant & tank & H).
  exists r, map, tiles, occupant, tank. split; [reflexivity|exact H].
Defined.

(** C2 fails on the code: the only player is p1, the tank on the map
    belongs to p2, and the game state decodes, the owner left as it came. *)
Lemma dangling_owner_counterexample :
  "p2" <> "p1"
  /\ GameStatePayload_from_json unconverted
       (game_state_data [VDict (player_data "p1")] (tank_data (VStr "p2")))
     = Ok (VInst GameStatePayload
             [("id", VStr "state-1"); ("tick", VInt 7);
              ("players",
               VTuple [VInst RawPlayer
                         [("id", VStr "p1"); ("nickname", VStr "bot");
                          ("color", VInt 4278190335); ("score", VNone);
                          ("ping", VNone); ("ticks_to_regen", VNone)]]);
              ("map",
               VInst RawMap
                 [("tiles",
                   VTuple [VTuple [VTuple [
                     VInst RawTileObject
                       [("type", VStr "tank");
                        ("entity",
                         VInst RawTank
                           [("owner_id", VStr "p2"); ("direction", VInt 0);
                            ("turret",
                             VInst RawTurret
                               [("direction", VInt 1); ("bullet_count", VNone);
                                ("ticks_to_regen_bullet", VNone)]);
                            ("health", VNone)])]]]]);
                  ("zones", VTuple []);
                  ("visibility", VTuple [VStr "1"])])]).
Proof.
  split; [discriminate|reflexivity].
Qed.

Lemma unknown_tag_is_rejected_witness :
  RawTileObject_from_json unconverted
    (VDict [("type", VStr "drone"); ("payload", VDict [])]) =
  Raise (ValueError (Text "Unknown tile object class: RawDrone")).
Proof.
  apply (unknown_tag_is_rejected unconverted
           [("type", VStr "drone"); ("payload", VDict [])] "drone").
  - reflexivity.
  - simpl. intros [H|[H|[H|[H|[]]]]]; discriminate H.
Defined.

(** C4 fails on the code: the tags [Wall] and [tile_entity] are none of
    wall, bullet and tank, and yet an occupant record is produced for each:
    a wall for the first, whose Pascal-cased name is that of wall, and a
    record with None for entity for the second, which names the abstract
    base class of the entities. *)
Lemma tag_outside_the_set_counterexample :
  (~ In "Wall" ["wall"; "bullet"; "tank"]
   /\ RawTileObject_from_json unconverted
        (VDict [("type", VStr "Wall"); ("payload", VDict [])])
      = Ok (VInst RawTileObject [("type", VStr "Wall"); ("entity", VInst RawWall [])]))
  /\ (~ In "tile_entity" ["wall"; "bullet"; "tank"]
      /\ RawTileObject_from_json unconverted
           (VDict [("type", VStr "tile_entity"); ("payload", VDict [])])
         = Ok (VInst RawTileObject [("type", VStr "tile_entity"); ("entity", VNone)])).
Proof.
  split; (split; [|reflexivity]);
    simpl; intros [H|[H|[H|[]]]]; discriminate H.
Qed.

Lemma occupant_tag_dispatch_witness :
  RawTileObject_from_json unconverted (tank_data (VStr "p1")) =
  Ok (VInst RawTileObject
        [("type", VStr "tank");
         ("entity",
          VInst RawTank
            [("owner_id", VStr "p1"); ("direction", VInt 0);
             ("turret",
              VInst RawTurret
                [("direction", VInt 1); ("bullet_count", VNone);
                 ("ticks_to_regen_bullet", VNone)]);
             ("health", VNone)])])
  /\ RawTank_from_json (VDict [("owner_id", VStr "p1"); ("turret", VInt 3)]) =
     Raise TypeError.
Proof.
  split.
  - destruct (proj1 (occupant_tag_dispatch unconverted) "tank" RawTank RawTank_from_json
                [("type", VStr "tank");
                 ("payload", VDict [("owner_id", VStr "p1"); ("direction", VInt 0);
                                    ("turret", VDict [("direction", VInt 1)])])])
      as [_ H].
    + simpl. auto.
    + reflexivity.
    + unfold tank_data. rewrite H. reflexivity.
  - rewrite (proj2 (occupant_tag_dispatch unconverted)
               [("owner_id", VStr "p1"); ("turret", VInt 3)] (VInt 3) eq_refl).
    reflexivity.
Defined.

Lemma missing_payload_is_empty_witness :
  RawTileObject_from_json unconverted (VDict [("type", VStr "wall")]) =
  Ok (VInst RawTileObject [("type", VStr "wall"); ("entity", VInst RawWall [])])
  /\ RawTileObject_from_json unconverted (VDict [("type", VStr "bullet")]) =
     Raise TypeError
  /\ RawTileObject_from_json unconverted (VDict [("type", VStr "tank")]) =
     Raise (KeyError "turret").
Proof.
  split; [|split].
  - apply (missing_payload_is_empty unconverted [("type", VStr "wall")]); reflexivity.
  - apply (missing_payload_is_empty unconverted [("type", VStr "bullet")]); reflexivity.
  - apply (missing_payload_is_empty unconverted [("type", VStr "tank")]); reflexivity.
Defined.

Lemma decoded_records_are_immutable_witness :
  exists r,
    RawPlayer_from_json (VDict (player_data "p1")) = Ok r
    /\ setattr r "nickname" (VStr "other") = Raise FrozenInstanceError
    /\ delattr r "nickname" = Raise FrozenInstanceError
    /\ is_ok (setattr r "team" (VInt 2)) = false.
Proof.
  destruct (RawPlayer_from_json (VDict (player_data "p1"))) as [r|e] eqn:Hr;
    [|vm_compute in Hr; discriminate Hr].
  destruct (proj2 (decoded_records_are_immutable unconverted)
              RawPlayer_from_json (VDict (player_data "p1")) r
              (or_intror (or_introl eq_refl)) Hr)
    as (c & slots & Heq & Hk & H).
  exists r. split; [reflexivity|].
  destruct (H "nickname" (VStr "other")) as [Hfield _].
  destruct (H "team" (VInt 2)) as [_ [Hteam _]].
  assert (Hin : In "nickname" (dict_keys slots)).
  { vm_compute in Hr. injection Hr as <-. injection Heq as <- <-. simpl. auto. }
  destruct (Hfield Hin) as [Hs Hd].
  split; [exact Hs|]. split; [exact Hd|exact Hteam].
Defined.

Lemma occupant_reads_type_and_payload_only_witness :
  RawTileObject_from_json unconverted
    (VDict [("type", VStr "wall"); ("payload", VDict []); ("seen", VBool true)])
  = RawTileObject_from_json unconverted
      (VDict [("payload", VDict []); ("type", VStr "wall")]).
Proof.
  apply (occupant_reads_type_and_payload_only unconverted
           [("type", VStr "wall"); ("payload", VDict []); ("seen", VBool true)]
           [("payload", VDict []); ("type", VStr "wall")]); reflexivity.
Defined.

Lemma decoded_occupant_shape_witness :
  exists (d : dict) (tag : string) (entity : value),
    dict_get "type" d = Some (VStr tag)
    /\ RawTileObject_from_json unconverted (VDict d) =
       Ok (VInst RawTileObject [("type", VStr tag); ("entity", entity)])
    /\ exists c slots, entity = VInst c slots.
Proof.
  destruct (decoded_occupant_shape unconverted
              (VDict [("type", VStr "bullet"); ("payload", VDict [("id", VInt 9)])])
              (VInst RawTileObject
                 [("type", VStr "bullet");
                  ("entity", VInst RawBullet [("id", VInt 9); ("speed", VNone);
                                              ("direction", VNone)])])
              eq_refl)
    as (d & tag & entity & Hj & Ht & Hr & Hent).
  exists d, tag, entity. split; [exact Ht|]. split.
  - rewrite <- Hj, <- Hr. reflexivity.
  - destruct Hent as [[_ He]|(c & slots & _ & He)].
    + subst entity. inversion Hr.
    + eauto.
Defined.

Lemma wall_payload_must_be_empty_witness :
  is_ok (RawTileObject_from_json unconverted
           (VDict [("type", VStr "wall"); ("payload", VDict [])]))
  = true.
Proof.
  apply (wall_payload_must_be_empty unconverted
           [("type", VStr "wall"); ("payload", VDict [])]);
    reflexivity.
Defined.

Lemma decoded_map_shape_witness :
  exists r,
    RawMap_from_json unconverted
      (VDict [("tiles", VList [VList [VList []; VList [VDict [("type", VStr "wall")]]]]);
              ("zones", VList []);
              ("visibility", VList [VStr "10"])]) = Ok r
    /\ getattr r "visibility" = Ok (VTuple [VStr "10"]).
Proof.
  eexists. split; [reflexivity|].
  apply (decoded_map_shape unconverted
           [("tiles", VList [VList [VList []; VList [VDict [("type", VStr "wall")]]]]);
            ("zones", VList []);
            ("visibility", VList [VStr "10"])]
           _ [VList [VList []; VList [VDict [("type", VStr "wall")]]]] [] [VStr "10"]);
    reflexivity.
Defined.

Lemma one_bad_part_fails_the_game_state_witness :
  is_ok (GameStatePayload_from_json unconverted
           (game_state_data [VDict (player_data "p1")]
              (VDict [("type", VStr "drone"); ("payload", VDict [])]))) = false.
Proof.
  apply (one_bad_part_fails_the_game_state unconverted
           [("id", VStr "state-1"); ("tick", VInt 7);
            ("players", VList [VDict (player_data "p1")]);
            ("map", VDict [("tiles", VList [VList [VList [
                              VDict [("type", VStr "drone"); ("payload", VDict [])]]]]);
                           ("zones", VList []);
                           ("visibility", VList [VStr "1"])])]
           [("tiles", VList [VList [VList [
                VDict [("type", VStr "drone"); ("payload", VDict [])]]]]);
            ("zones", VList []);
            ("visibility", VList [VStr "1"])]
           [VList [VList [VDict [("type", VStr "drone"); ("payload", VDict [])]]]]
           []); try reflexivity.
  left.
  exists [VList [VDict [("type", VStr "drone"); ("payload", VDict [])]]],
         [VDict [("type", VStr "drone"); ("payload", VDict [])]],
         (VDict [("type", VStr "drone"); ("payload", VDict [])]).
  simpl. auto.
Defined.

Lemma decoded_game_state_fields_witness :
  exists r,
    GameStatePayload_from_json unconverted
      (game_state_data [VDict (player_data "p1")] (tank_data (VStr "p1"))) = Ok r
    /\ getattr r "id" = Ok (VStr "state-1")
    /\ getattr r "tick" = Ok (VInt 7).
Proof.
  eexists. split; [reflexivity|].
  destruct (proj2 (decoded_game_state_fields unconverted
              [("id", VStr "state-1"); ("tick", VInt 7);
               ("players", VList [VDict (player_data "p1")]);
               ("map", VDict [("tiles", VList [VList [VList [tank_data (VStr "p1")]]]);
                              ("zones", VList []);
                              ("visibility", VList [VStr "1"])])]
              _ eq_refl)) as (id & tick & Hid & Htick & Gid & Gtick).
  injection Hid as <-. injection Htick as <-. auto.
Defined.

Lemma composite_decoders_reject_unknown_keys_witness :
  is_ok (RawTank_from_json
           (VDict [("owner_id", VStr "p1"); ("direction", VInt 0);
                   ("turret", VDict [("direction", VInt 1)]);
                   ("armor", VInt 3)])) = false.
Proof.
  apply (composite_decoders_reject_unknown_keys unconverted RawTank RawTank_from_json
           [("owner_id", VStr "p1"); ("direction", VInt 0);
            ("turret", VDict [("direction", VInt 1)]); ("armor", VInt 3)] "armor").
  - simpl. auto.
  - simpl. auto.
  - reflexivity.
Defined.


